(** * CertificateParser

    A shallow embedding of [Assistant/lib/parser.py]: the field locator
    [_getField], the single-certificate resolver [parse] with its bounded
    retry loop, and the batch operation [retrieveBatch] in its sequential
    and thread-pool modes, together with the fragment of Python and of the
    [requests] / [concurrent.futures] libraries that they rely on. *)

From Stdlib Require Import ZArith List String Ascii Bool Lia.
From Stdlib Require Import DecimalString.
From Stdlib Require DecimalPos DecimalZ.
From Stdlib Require Import Floats.PrimFloat Numbers.Cyclic.Int63.Uint63.
Import ListNotations.

Local Open Scope list_scope.
Local Open Scope Z_scope.

(* ================================================================== *)
(** ** Python values *)
(* ================================================================== *)

(** The values that [parse] builds and returns: [None], [False], the
    identifier (an [int]), the text of a node (a [str] or [None]) and the
    certificate [dict], kept as an association list in insertion order. *)
#[local] Set Warnings "-register-all".
Inductive PyVal : Type :=
| PyNone
| PyBool (b : bool)
| PyInt (z : Z)
| PyStr (s : string)
| PyDict (items : list (string * PyVal)).

(** [d[key]] on the items of a dict; [None] stands for [KeyError]. *)
Fixpoint py_getitem (items : list (string * PyVal)) (key : string)
  : option PyVal :=
  match items with
  | [] => None
  | (k, v) :: rest => if String.eqb k key then Some v else py_getitem rest key
  end.

(** Python's [a == b] on these values.  [bool] is a subclass of [int], so
    [False == 0] and [True == 1]; dicts are equal when they have the same
    keys bound to equal values, whatever the insertion order. *)
Fixpoint py_eq (a b : PyVal) {struct a} : bool :=
  match a, b with
  | PyNone, PyNone => true
  | PyBool x, PyBool y => Bool.eqb x y
  | PyBool x, PyInt y => Z.b2z x =? y
  | PyInt x, PyBool y => x =? Z.b2z y
  | PyInt x, PyInt y => x =? y
  | PyStr x, PyStr y => String.eqb x y
  | PyDict d1, PyDict d2 =>
      Nat.eqb (List.length d1) (List.length d2)
      && (fix all_bound (l : list (string * PyVal)) : bool :=
            match l with
            | [] => true
            | (k, v) :: rest =>
                match py_getitem d2 k with
                | Some w => py_eq v w && all_bound rest
                | None => false
                end
            end) d1
  | _, _ => false
  end.

(** [bool(x)] for a list: a list is truthy when it is not empty. *)
Definition truthy {A : Type} (l : list A) : bool :=
  match l with [] => false | _ :: _ => true end.

(** [l.count(v)]: the number of elements equal ([==]) to [v]. *)
Definition list_count (l : list PyVal) (v : PyVal) : Z :=
  Z.of_nat (List.length (filter (fun x => py_eq x v) l)).

(** [range(start, stop)]. *)
Definition py_range (start stop : Z) : list Z :=
  map (fun i => start + Z.of_nat i) (seq 0 (Z.to_nat (stop - start))).

(** [str(n)] for an [int]: decimal digits, a leading minus sign when
    negative, no padding. *)
Definition str_int (z : Z) : string := NilZero.string_of_int (Z.to_int z).

(** [float(n)], exact for [0 <= n < 2^53]. *)
Definition float_of_int (z : Z) : float := PrimFloat.of_uint63 (Uint63.of_Z z).

(* ================================================================== *)
(** ** Exceptions, results, effects *)
(* ================================================================== *)

(** The classes of [requests.exceptions] that a GET can raise. *)
Inductive RequestException : Type :=
| ConnectionError
| ProxyError
| SSLError
| ConnectTimeout
| Timeout
| ReadTimeout
| TooManyRedirects
| ChunkedEncodingError
| ContentDecodingError.

(** [isinstance(e, requests.exceptions.ConnectionError)]. *)
Definition isinstance_ConnectionError (e : RequestException) : bool :=
  match e with
  | ConnectionError | ProxyError | SSLError | ConnectTimeout => true
  | _ => false
  end.

(** [isinstance(e, requests.exceptions.Timeout)]. *)
Definition isinstance_Timeout (e : RequestException) : bool :=
  match e with
  | Timeout | ConnectTimeout | ReadTimeout => true
  | _ => false
  end.

(** Exceptions that can leave a method of the class. *)
Inductive PyExc : Type :=
| RequestsError (e : RequestException)
| KeyError (key : string)
| ZeroDivisionError
| AttributeError (type_name attr : string).

Inductive Result (A : Type) : Type :=
| Ret (a : A)
| Raise (e : PyExc).
Arguments Ret {A} a.
Arguments Raise {A} e.

Inductive Level : Type := DEBUG | INFO | WARNING | ERROR.

(** An f-string, as its literal parts and its interpolated values. *)
Inductive Frag : Type :=
| Lit (s : string)
| Fmt (v : PyVal)
| FmtFloat (x : float).

(** What a run does to the outside: log records ([logger.exception] is
    [ERROR] with [exc_info] set) and HTTP requests. *)
Inductive Event : Type :=
| Log (lvl : Level) (exc_info : bool) (msg : list Frag)
| Get (url : string) (timeout : Z).

Definition Trace := list Event.

(** Computations that append to the trace and may raise. *)
Definition M (A : Type) : Type := Trace -> Trace * Result A.

Definition ret {A : Type} (a : A) : M A := fun t => (t, Ret a).

Definition raise {A : Type} (e : PyExc) : M A := fun t => (t, Raise e).

Definition bind {A B : Type} (c : M A) (k : A -> M B) : M B :=
  fun t =>
    match c t with
    | (t', Ret a) => k a t'
    | (t', Raise e) => (t', Raise e)
    end.

Definition emit (e : Event) : M unit := fun t => (t ++ [e], Ret tt).

Declare Scope py_scope.
Delimit Scope py_scope with py.
Notation "x <- c ;; k" := (bind c (fun x => k))
  (at level 100, c at next level, right associativity) : py_scope.
Notation "c ;; k" := (bind c (fun _ => k))
  (at level 100, right associativity) : py_scope.
Local Open Scope py_scope.

Definition log (lvl : Level) (msg : list Frag) : M unit :=
  emit (Log lvl false msg).

Definition log_exception (msg : list Frag) : M unit :=
  emit (Log ERROR true msg).

(* ================================================================== *)
(** ** The fetched page and the network *)
(* ================================================================== *)

(** A node of the page; [tag_string] is its [.string], [None] when the
    node does not hold a single text child. *)
Record Tag : Type := { tag_string : option string }.

Definition string_of (t : Tag) : PyVal :=
  match tag_string t with
  | Some s => PyStr s
  | None => PyNone
  end.

(** A parsed page, seen through [browser.select]: the nodes that match a
    selector, in document order. *)
Definition Document : Type := string -> list Tag.

(** The outcome of one [browser.open]. *)
Inductive Response : Type :=
| Page (doc : Document)
| Fails (e : RequestException).

(** The portal, as seen by one browser: the response to the GET of [url]
    after [n] earlier requests by the same browser. *)
Definition Network : Type := string -> nat -> Response.

(* ================================================================== *)
(** ** Class attributes *)
(* ================================================================== *)

Record Attrs : Type := {
  _retry_attempts : Z;
  _batch_size : Z;
  _base_url : string;
  _base_field : string
}.

Definition CertificateParser : Attrs := {|
  _retry_attempts := 4;
  _batch_size := 1000;
  _base_url :=
    "http://www.pace.sep.gob.mx/certificadosdgb/certificadoremesadetalles/";
  _base_field := "#_s_com_dgb_sep_domain_CertificadoRemesaDetalle_"
|}.

Definition batchSize (cls : Attrs) : Z := _batch_size cls.

(* ================================================================== *)
(** ** [_getField] *)
(* ================================================================== *)

Definition _getField (self : Attrs) (field_name : string) : string :=
  (_base_field self ++ field_name ++ "_" ++ field_name ++ "_id")%string.

(* ================================================================== *)
(** ** [parse] *)
(* ================================================================== *)

(** The [while not request_ok and attempts < self._retry_attempts] loop.
    [budget] is [_retry_attempts - attempts], which every failed
    iteration decreases by one; the loop is left with [Some doc] when
    [request_ok] was set and with [None] when the budget ran out.  An
    exception matching neither [except] clause leaves the loop. *)
Fixpoint open_with_retry (self : Attrs) (net : Network) (number_code : Z)
    (budget : nat) (attempts : Z) : M (option Document) :=
  match budget with
  | O => ret None
  | S budget' =>
      let url := (_base_url self ++ str_int number_code)%string in
      emit (Get url 10) ;;
      match net url (Z.to_nat attempts) with
      | Page doc => ret (Some doc)
      | Fails e =>
          if isinstance_ConnectionError e then
            log WARNING [Lit "Failed to retrieve page "; Fmt (PyInt number_code)] ;;
            open_with_retry self net number_code budget' (attempts + 1)
          else if isinstance_Timeout e then
            log WARNING [Lit "Timeout on page "; Fmt (PyInt number_code)] ;;
            open_with_retry self net number_code budget' (attempts + 1)
          else raise (RequestsError e)
      end
  end.

(** [x[0]]; [None] stands for [IndexError]. *)
Definition first {A : Type} (l : list A) : option A := hd_error l.

(** The [try] block: the dict display evaluates its values left to
    right, and the first empty selection raises [IndexError] ([None]). *)
Definition build_student_dict (number_code : Z)
    (nombre plantel clave rvoe matricula promedio periodo tipo cert : list Tag)
  : option (list (string * PyVal)) :=
  match first nombre with None => None | Some nombre0 =>
  match first plantel with None => None | Some plantel0 =>
  match first clave with None => None | Some clave0 =>
  match first rvoe with None => None | Some rvoe0 =>
  match first matricula with None => None | Some matricula0 =>
  match first promedio with None => None | Some promedio0 =>
  match first periodo with None => None | Some periodo0 =>
  match first tipo with None => None | Some tipo0 =>
  match first cert with None => None | Some cert0 =>
    Some [ ("number"%string, PyInt number_code);
           ("nombre"%string, string_of nombre0);
           ("plantel"%string, string_of plantel0);
           ("clave_trabajo"%string, string_of clave0);
           ("rvoe"%string, string_of rvoe0);
           ("matricula"%string, string_of matricula0);
           ("promedio"%string, string_of promedio0);
           ("periodo"%string, string_of periodo0);
           ("tipo_certificado"%string, string_of tipo0);
           ("certificado"%string, string_of cert0) ]
  end end end end end end end end end.

(** Everything after the page was opened. *)
Definition extract (self : Attrs) (doc : Document) (number_code : Z)
  : M PyVal :=
  log DEBUG [Lit "Opened URL "; Fmt (PyStr (_base_url self));
             Fmt (PyInt number_code)] ;;
  let plantel := doc (_getField self "tmpNombrePlantel") in
  if truthy plantel then
    log DEBUG [Lit "Certificate found on code "; Fmt (PyInt number_code)] ;;
    let clave := doc (_getField self "tmpClaveCct") in
    let rvoe := doc (_getField self "tmpRvoe") in
    let tipo := doc (_getField self "tmpTipoCertificado") in
    let cert := doc (_getField self "tmpFolioDigital") in
    let nombre := doc (_getField self "tmpNombreCompleto") in
    let matricula := doc (_getField self "matricula") in
    let promedio := doc (_getField self "promedio") in
    let periodo := doc (_getField self "tmpPeriodo") in
    match build_student_dict number_code
            nombre plantel clave rvoe matricula promedio periodo tipo cert with
    | None =>
        log_exception [Lit "Fields missing on "; Fmt (PyInt number_code)] ;;
        ret (PyBool false)
    | Some student_dict =>
        match py_getitem student_dict "certificado" with
        | None => raise (KeyError "certificado")
        | Some folio =>
            log INFO [Lit "Parsed "; Fmt folio] ;;
            ret (PyDict student_dict)
        end
    end
  else
    log WARNING [Lit "No certificate under code "; Fmt (PyInt number_code)] ;;
    ret PyNone.

Definition parse (self : Attrs) (net : Network) (number_code : Z) : M PyVal :=
  browser <- open_with_retry self net number_code
               (Z.to_nat (_retry_attempts self)) 0 ;;
  match browser with
  | None =>
      log_exception [Lit "Connection error on "; Fmt (PyInt number_code)] ;;
      ret (PyBool false)
  | Some doc => extract self doc number_code
  end.

(* ================================================================== *)
(** ** [retrieveBatch] *)
(* ================================================================== *)

(** What the local variable [cert_list] can be bound to. *)
Inductive Iterable : Type :=
| ListObj (items : list PyVal)
    (** a [list] *)
| MapObj (pending : list Z)
    (** the lazy [map(self.parse, cert_range)]: nothing was called yet *)
| ResultIterator (futures : list (Result PyVal)).
    (** the generator that [Executor.map] returns, over the futures of
        the submitted calls *)

(** [list(map(f, xs))]: the calls are made one after the other, in the
    order of [xs]; an exception of a call ends the iteration. *)
Fixpoint list_of_map {A B : Type} (f : A -> M B) (xs : list A) : M (list B) :=
  match xs with
  | [] => ret []
  | x :: xs' =>
      y <- f x ;;
      ys <- list_of_map f xs' ;;
      ret (y :: ys)
  end.

(** Draining the generator of [Executor.map]: the results in submission
    order, up to the first future that holds an exception. *)
Fixpoint results_of (futures : list (Result PyVal)) : M (list PyVal) :=
  match futures with
  | [] => ret []
  | Ret v :: rest => vs <- results_of rest ;; ret (v :: vs)
  | Raise e :: _ => raise e
  end.

(** [cert_list.count(value)]: only a [list] has the method. *)
Definition count_method (cert_list : Iterable) (value : PyVal) : M Z :=
  match cert_list with
  | ListObj items => ret (list_count items value)
  | MapObj _ => raise (AttributeError "map" "count")
  | ResultIterator _ => raise (AttributeError "generator" "count")
  end.

(** [a / b] on ints (true division), for operands below [2^53]. *)
Definition py_truediv (a b : Z) : M float :=
  if b =? 0 then raise ZeroDivisionError
  else ret (PrimFloat.div (float_of_int a) (float_of_int b)).

Section Batch.

Variable self : Attrs.
Variable net : Network.

(** The thread pool: how the events of the worker threads end up
    interleaved in the one trace. *)
Variable schedule : list Trace -> Trace.

(** [list(cert_list)]. *)
Definition py_list (cert_list : Iterable) : M Iterable :=
  match cert_list with
  | ListObj items => ret (ListObj items)
  | MapObj pending =>
      items <- list_of_map (parse self net) pending ;;
      ret (ListObj items)
  | ResultIterator futures =>
      items <- results_of futures ;;
      ret (ListObj items)
  end.

(** [executor.map(self.parse, cert_range)] followed by the exit of the
    [with] block, which waits for every submitted call: each call runs
    on a worker with its result or exception kept in its future. *)
Definition executor_map (cert_range : list Z) : M Iterable :=
  fun t =>
    let runs := map (fun number_code => parse self net number_code []) cert_range in
    (t ++ schedule (map fst runs), Ret (ResultIterator (map snd runs))).

Definition retrieveBatch (file_no : Z) (threaded : bool) : M Iterable :=
  let range_start := _batch_size self * file_no in
  let cert_range := py_range range_start (range_start + _batch_size self) in
  log INFO [Lit "Starting batch number "; Fmt (PyInt file_no)] ;;
  cert_list <- (if threaded then executor_map cert_range
                else ret (MapObj cert_range)) ;;
  cert_list <- (if negb threaded then py_list cert_list
                else ret cert_list) ;;
  log INFO [Lit "Completed batch number "; Fmt (PyInt file_no)] ;;
  failed_certs <- count_method cert_list (PyBool false) ;;
  (if failed_certs >=? 1 then
     log WARNING [Fmt (PyInt failed_certs);
                  Lit " elements could not be obtained"] ;;
     ratio <- py_truediv failed_certs (_batch_size self) ;;
     let failure_rate := PrimFloat.mul ratio (float_of_int 100) in
     log WARNING [FmtFloat failure_rate; Lit "% failure rate"]
   else ret tt) ;;
  ret cert_list.

End Batch.

(* ================================================================== *)
(** ** Item outcomes *)
(* ================================================================== *)

(** The three-way outcome that a value returned by [parse] stands for. *)
Inductive ItemOutcome : Type :=
| Found (record : list (string * PyVal))
| NotFound
| FetchFailed.

Definition outcome_of (v : PyVal) : option ItemOutcome :=
  match v with
  | PyDict record => Some (Found record)
  | PyNone => Some NotFound
  | PyBool false => Some FetchFailed
  | _ => None
  end.

Definition is_FetchFailed (v : PyVal) : bool :=
  match outcome_of v with
  | Some FetchFailed => true
  | _ => false
  end.

(** The value and the events of resolving one identifier on its own. *)
Definition parse_result (self : Attrs) (net : Network) (number_code : Z)
  : Result PyVal := snd (parse self net number_code []).

Definition parse_events (self : Attrs) (net : Network) (number_code : Z)
  : Trace := fst (parse self net number_code []).

(** The number of HTTP requests in a trace. *)
Definition requests_made (t : Trace) : nat :=
  List.length (filter (fun e => match e with Get _ _ => true | _ => false end) t).

(** The warning of one failed attempt: the first [except] clause that
    matches decides the wording. *)
Definition retry_warning (e : RequestException) (number_code : Z) : Event :=
  Log WARNING false
    [Lit (if isinstance_ConnectionError e then "Failed to retrieve page "
          else "Timeout on page ");
     Fmt (PyInt number_code)].

(** The errors that one of the two [except] clauses catches. *)
Definition transient (e : RequestException) : bool :=
  isinstance_ConnectionError e || isinstance_Timeout e.

(** The selectors that [parse] looks up once the institution name was
    found, in the order of the source. *)
Definition other_fields : list string :=
  [ "tmpClaveCct"; "tmpRvoe"; "tmpTipoCertificado"; "tmpFolioDigital";
    "tmpNombreCompleto"; "matricula"; "promedio"; "tmpPeriodo" ]%string.

(** The keys of the certificate dict, in insertion order. *)
Definition record_keys : list string :=
  [ "number"; "nombre"; "plantel"; "clave_trabajo"; "rvoe"; "matricula";
    "promedio"; "periodo"; "tipo_certificado"; "certificado" ]%string.



(** The value of a call that returned. *)
Definition value_of (r : Result PyVal) : PyVal :=
  match r with
  | Ret v => v
  | Raise _ => PyNone
  end.

(** A computation only appends to the trace it is given, and what it
    appends and returns does not depend on that trace. *)
Definition framed {A : Type} (c : M A) : Prop :=
  forall t, c t = (t ++ fst (c []), snd (c [])).

(** The value that [extract] returns for a page. *)
Definition extract_value (self : Attrs) (doc : Document) (number_code : Z)
  : PyVal :=
  if truthy (doc (_getField self "tmpNombrePlantel")) then
    match build_student_dict number_code
            (doc (_getField self "tmpNombreCompleto"))
            (doc (_getField self "tmpNombrePlantel"))
            (doc (_getField self "tmpClaveCct"))
            (doc (_getField self "tmpRvoe"))
            (doc (_getField self "matricula"))
            (doc (_getField self "promedio"))
            (doc (_getField self "tmpPeriodo"))
            (doc (_getField self "tmpTipoCertificado"))
            (doc (_getField self "tmpFolioDigital")) with
    | Some student_dict => PyDict student_dict
    | None => PyBool false
    end
  else PyNone.

(** A page that shows the institution name but lacks one of the other
    nodes that [parse] reads. *)
Definition page_shape_failure (self : Attrs) (doc : Document) : Prop :=
  doc (_getField self "tmpNombrePlantel") <> []
  /\ exists f, In f other_fields /\ doc (_getField self f) = [].

(** The URL that [parse] opens for an identifier. *)
Definition url_of (self : Attrs) (number_code : Z) : string :=
  (_base_url self ++ str_int number_code)%string.

(** Attempt [k] of a browser failed with an error that is retried. *)
Definition failed_transiently (net : Network) (url : string) (k : nat) : Prop :=
  exists e, net url k = Fails e /\ transient e = true.

(** The identifiers of batch [file_no]. *)
Definition cert_range (self : Attrs) (file_no : Z) : list Z :=
  py_range (_batch_size self * file_no)
           (_batch_size self * file_no + _batch_size self).

(** The items of a sequential batch in which every call returns. *)
Definition batch_items (self : Attrs) (net : Network) (file_no : Z) : list PyVal :=
  map (fun x => value_of (parse_result self net x)) (cert_range self file_no).

(** [(failed_certs / self._batch_size) * 100]. *)
Definition failure_rate (self : Attrs) (failed_certs : Z) : float :=
  PrimFloat.mul
    (PrimFloat.div (float_of_int failed_certs) (float_of_int (_batch_size self)))
    (float_of_int 100).

(** The two warnings that close a batch with failures. *)
Definition failure_warnings (self : Attrs) (failed_certs : Z) : Trace :=
  if failed_certs >=? 1 then
    [ Log WARNING false [Fmt (PyInt failed_certs);
                         Lit " elements could not be obtained"];
      Log WARNING false [FmtFloat (failure_rate self failed_certs);
                         Lit "% failure rate"] ]
  else [].

(** A record that reports a failure rate. *)
Definition reports_rate (e : Event) : bool :=
  match e with
  | Log _ _ (FmtFloat _ :: _) => true
  | _ => false
  end.

(* ================================================================== *)
(** ** Fixtures *)
(* ================================================================== *)

Module Fixtures.

Definition node (s : string) : Tag := {| tag_string := Some s |}.

(** A page without any of the certificate nodes. *)
Definition empty_doc : Document := fun _ => [].

(** A page with the institution name and the eight other nodes, the
    folio node reading [folio]. *)
Definition full_doc (self : Attrs) (folio : string) : Document :=
  fun selector =>
    if String.eqb selector (_getField self "tmpFolioDigital") then [node folio]
    else if existsb (String.eqb selector)
              (map (_getField self) ("tmpNombrePlantel"%string :: other_fields))
    then [node "x"]
    else [].

(** A page with the institution name only. *)
Definition plantel_only_doc (self : Attrs) : Document :=
  fun selector =>
    if String.eqb selector (_getField self "tmpNombrePlantel")
    then [node "PREPARATORIA"]
    else [].

(** The portal answers every request with [r]. *)
Definition always (r : Response) : Network := fun _ _ => r.

(** The first [k] requests of a browser fail with [e], the next gets [r]. *)
Definition fails_then (k : nat) (e : RequestException) (r : Response)
  : Network :=
  fun _ n => if Nat.ltb n k then Fails e else r.

(** The identifiers below [k] are unreachable, the others have no
    certificate. *)
Definition unreachable_below (self : Attrs) (k : Z) : Network :=
  fun url _ =>
    if existsb (String.eqb url)
         (map (fun i => (_base_url self ++ str_int i)%string) (py_range 0 k))
    then Fails ConnectionError
    else Page empty_doc.

(** Identifier 0 has a certificate, 1 has none, 2 is unreachable. *)
Definition mixed (self : Attrs) : Network :=
  fun url _ =>
    if String.eqb url (_base_url self ++ str_int 0)%string
    then Page (full_doc self "A123")
    else if String.eqb url (_base_url self ++ str_int 1)%string
    then Page empty_doc
    else Fails ReadTimeout.

(** The workers' events, taken in submission order. *)
Definition in_submission_order : list Trace -> Trace := @List.concat Event.

End Fixtures.

(* ================================================================== *)
(** ** Reading a trace *)
(* ================================================================== *)

(** The requests of a trace, in order: the URL and the timeout of each. *)
Definition requested (t : Trace) : list (string * Z) :=
  flat_map (fun e => match e with
                     | Get url timeout => [(url, timeout)]
                     | Log _ _ _ => []
                     end) t.

(** The records of a trace logged at [ERROR]. *)
Definition is_error (e : Event) : bool :=
  match e with
  | Log ERROR _ _ => true
  | _ => false
  end.

Definition errors (t : Trace) : nat := List.length (filter is_error t).

(** The events of attempt [j] of a browser on the page of
    [number_code]: the request and, when it fails with an error that is
    retried, the warning. *)
Definition attempt_events (self : Attrs) (net : Network) (number_code : Z)
    (j : nat) : Trace :=
  match net (url_of self number_code) j with
  | Page _ => [Get (url_of self number_code) 10]
  | Fails e =>
      if transient e
      then [Get (url_of self number_code) 10; retry_warning e number_code]
      else [Get (url_of self number_code) 10]
  end.

(** The events of the attempts [0], ..., [k-1]. *)
Definition attempts_trace (self : Attrs) (net : Network) (number_code : Z)
    (k : nat) : Trace :=
  List.concat (map (attempt_events self net number_code) (seq 0 k)).



Module Scenarios.

(** The class with its retries switched off. *)
Definition without_retries : Attrs := {|
  _retry_attempts := 0;
  _batch_size := _batch_size CertificateParser;
  _base_url := _base_url CertificateParser;
  _base_field := _base_field CertificateParser
|}.

(** Identifier 1 answers with a redirect loop; the others have no
    certificate. *)
Definition redirect_loop_at_1 (self : Attrs) : Network :=
  fun url _ =>
    if String.eqb url (_base_url self ++ str_int 1)%string
    then Fails TooManyRedirects
    else Page Fixtures.empty_doc.

(** A page whose selections hold a second node each. *)
Definition doubled (doc : Document) : Document :=
  fun selector =>
    match doc selector with
    | [] => []
    | t :: rest => t :: Fixtures.node "second" :: rest
    end.

End Scenarios.

(* ================================================================== *)
(** ** The widgets of [qt_elements.py] *)
(* ================================================================== *)

(** [DownloadDialog.updateRange]: the text set on [range_label] when
    [batch_no_spin] holds [current_value]. *)
Definition updateRange (batch_size current_value : Z) : string :=
  let r_start := (current_value - 1) * batch_size in
  let r_end := current_value * batch_size - 1 in
  ("Download certificates " ++ str_int r_start ++ " - " ++ str_int r_end)%string.

(** The line feed. *)
Definition newline : string := String "010"%char EmptyString.

(** [sep.join(strings)]. *)
Definition py_join (sep : string) (strings : list string) : string :=
  String.concat sep strings.

(** [d[key]] on a dict display [{k1: v1, ...}], for keys compared with
    [same]: a later entry with an equal key replaces the value of an
    earlier one, and [None] stands for [KeyError]. *)
Fixpoint dict_display_get {K V : Type} (same : K -> K -> bool)
    (entries : list (K * V)) (key : K) : option V :=
  match entries with
  | [] => None
  | (k, v) :: rest =>
      match dict_display_get same rest key with
      | Some w => Some w
      | None => if same k key then Some v else None
      end
  end.

(** The texts that [DownloadDetails.initBatchTab] sets. *)
Record BatchTab : Type := {
  download_log : string;
  not_found_label : string;
  failed_label : string;
  downloaded_label : string;
  fetched_label : string
}.

(** The widgets of a [DownloadItem] that [setDownloadEvent] writes. *)
Record ItemWidgets : Type := {
  progress_label : string;
  progress_bar : Z;
  eta_label : string
}.

Section Enumerations.

(** [CertState] and [DownloadState] are declared in the [__init__] of
    the package, which is not among these sources: they are taken as
    types with the members that the widgets name, [same_cert] and
    [same_state] being the test [a is b]. *)
Variable CertState : Type.
Variable same_cert : CertState -> CertState -> bool.
Variables NOT_FOUND FAILED DOWNLOADED : CertState.

Variable DownloadState : Type.
Variable same_state : DownloadState -> DownloadState -> bool.
Variables CREATED STARTED COMPLETED SAVED STOPPED : DownloadState.

(** The message of a record, as the loop of [initBatchTab] picks it. *)
Definition record_msg_of (record : CertState) : string :=
  if same_cert record NOT_FOUND then "Does not exist"
  else if same_cert record FAILED then "Download failed"
  else "".

(** The [for] loop of [initBatchTab], from the list built so far. *)
Fixpoint display_log_loop (log : list (Z * CertState))
    (display_log : list string) : list string :=
  match log with
  | [] => display_log
  | (record_no, record) :: rest =>
      let record_msg := record_msg_of record in
      display_log_loop rest
        (if negb (same_cert record DOWNLOADED)
         then display_log
                ++ [("Certificate " ++ str_int record_no ++ ": " ++ record_msg)%string]
         else display_log)
  end.

Definition initBatchTab (batch_size : Z) (log : list (Z * CertState))
    (downloaded failed not_found : Z) : BatchTab :=
  let display_log := display_log_loop log [] in
  let total_certs := failed + not_found + downloaded in
  {| download_log := py_join newline display_log;
     not_found_label := (str_int not_found ++ "/" ++ str_int batch_size)%string;
     failed_label := (str_int failed ++ "/" ++ str_int batch_size)%string;
     downloaded_label := (str_int downloaded ++ "/" ++ str_int batch_size)%string;
     fetched_label := (str_int total_certs ++ "/" ++ str_int batch_size)%string |}.

Definition setProgress (w : ItemWidgets) (progress : Z) : ItemWidgets :=
  {| progress_label := progress_label w;
     progress_bar := progress;
     eta_label := eta_label w |}.

Definition setProgressText (w : ItemWidgets) (text : string) : ItemWidgets :=
  {| progress_label := text;
     progress_bar := progress_bar w;
     eta_label := eta_label w |}.

Definition setETA (w : ItemWidgets) (eta : string) : ItemWidgets :=
  {| progress_label := progress_label w;
     progress_bar := progress_bar w;
     eta_label := eta |}.

(** [DownloadItem.setDownloadEvent]; [None] stands for the [KeyError]
    of [outcome[event]]. *)
Definition setDownloadEvent (w : ItemWidgets) (event : DownloadState)
  : option ItemWidgets :=
  let outcome := [ (CREATED, "Download workload created"%string);
                   (STARTED, "Initializing download"%string);
                   (COMPLETED, "Download completed"%string);
                   (SAVED, "Data saved on disc"%string);
                   (STOPPED, "Download cancelled"%string) ] in
  match dict_display_get same_state outcome event with
  | None => None
  | Some text =>
      let w := setProgressText w text in
      if same_state event COMPLETED then
        Some (setETA (setProgress w 99) "0:00:01")
      else if same_state event SAVED then
        Some (setETA (setProgress w 100) "0:00:00")
      else Some w
  end.

(** The events of a download, delivered one after the other; the first
    [KeyError] ends the run. *)
Fixpoint deliver (w : ItemWidgets) (events : list DownloadState)
  : option ItemWidgets :=
  match events with
  | [] => Some w
  | event :: rest =>
      match setDownloadEvent w event with
      | Some w' => deliver w' rest
      | None => None
      end
  end.

End Enumerations.

(** Enumerations with five and three distinct members, to run the
    widgets on. *)
Module Members.

Inductive download_state : Type :=
| created | started | completed | saved | stopped.

Definition same_download_state (a b : download_state) : bool :=
  match a, b with
  | created, created | started, started | completed, completed
  | saved, saved | stopped, stopped => true
  | _, _ => false
  end.

Inductive cert_state : Type := not_found | failed | downloaded.

Definition same_cert_state (a b : cert_state) : bool :=
  match a, b with
  | not_found, not_found | failed, failed | downloaded, downloaded => true
  | _, _ => false
  end.

Definition idle : ItemWidgets :=
  {| progress_label := ""; progress_bar := 0; eta_label := "N/A" |}.

End Members.

(* ================================================================== *)
(** ** Strings *)
(* ================================================================== *)

Lemma string_length_app (a b : string) :
  String.length (a ++ b) = (String.length a + String.length b)%nat.
Proof.
  induction a as [|c a IH]; simpl; [reflexivity|].
  now rewrite IH.
Qed.

Lemma string_app_inv_head (p a b : string) :
  (p ++ a)%string = (p ++ b)%string -> a = b.
Proof.
  induction p as [|c p IH]; simpl; intros H; [exact H|].
  injection H as H. now apply IH.
Qed.

Lemma string_app_same_length (a b c d : string) :
  String.length a = String.length b ->
  (a ++ c)%string = (b ++ d)%string -> a = b /\ c = d.
Proof.
  revert b. induction a as [|x a IH]; intros [|y b] Hlen H; simpl in *;
    try discriminate.
  - split; [reflexivity | exact H].
  - injection H as Hxy H. injection Hlen as Hlen.
    destruct (IH b Hlen H) as [-> ->]. subst y. split; reflexivity.
Qed.

Lemma getField_length (self : Attrs) (f : string) :
  String.length (_getField self f)
  = (String.length (_base_field self) + 2 * String.length f + 4)%nat.
Proof.
  unfold _getField. rewrite !string_length_app. simpl. lia.
Qed.

Lemma getField_injective (self : Attrs) (f g : string) :
  _getField self f = _getField self g -> f = g.
Proof.
  intros H.
  assert (Hlen : String.length f = String.length g).
  { apply (f_equal String.length) in H. rewrite !getField_length in H. lia. }
  unfold _getField in H. apply string_app_inv_head in H.
  now apply string_app_same_length in H.
Qed.

(* ================================================================== *)
(** ** The trace is only appended to *)
(* ================================================================== *)

Lemma framed_ret {A : Type} (a : A) : framed (ret a).
Proof. intros t. unfold ret. simpl. now rewrite app_nil_r. Qed.

Lemma framed_raise {A : Type} (e : PyExc) : framed (@raise A e).
Proof. intros t. unfold raise. simpl. now rewrite app_nil_r. Qed.

Lemma framed_emit (e : Event) : framed (emit e).
Proof. intros t. reflexivity. Qed.

Lemma framed_bind {A B : Type} (c : M A) (k : A -> M B) :
  framed c -> (forall a, framed (k a)) -> framed (bind c k).
Proof.
  intros Hc Hk t. unfold bind. rewrite (Hc t).
  destruct (c []) as [t1 [a|e]]; simpl.
  - rewrite (Hk a (t ++ t1)), (Hk a t1). simpl. now rewrite app_assoc.
  - reflexivity.
Qed.

Create HintDb framed.
#[local] Hint Resolve framed_ret framed_raise framed_emit framed_bind : framed.

Lemma framed_log (lvl : Level) (msg : list Frag) : framed (log lvl msg).
Proof. apply framed_emit. Qed.

Lemma framed_log_exception (msg : list Frag) : framed (log_exception msg).
Proof. apply framed_emit. Qed.

#[local] Hint Resolve framed_log framed_log_exception : framed.

Lemma open_with_retry_framed self net number_code budget :
  forall attempts, framed (open_with_retry self net number_code budget attempts).
Proof.
  induction budget as [|budget IH]; intros attempts; simpl.
  - apply framed_ret.
  - apply framed_bind; [apply framed_emit|]. intros _.
    destruct (net _ _) as [doc|e]; [apply framed_ret|].
    destruct (isinstance_ConnectionError e);
      [|destruct (isinstance_Timeout e)]; auto with framed.
Qed.

Lemma extract_framed self doc number_code : framed (extract self doc number_code).
Proof.
  unfold extract. apply framed_bind; [auto with framed|]. intros _.
  destruct (truthy _); [|auto with framed].
  apply framed_bind; [auto with framed|]. intros _.
  destruct (build_student_dict _ _ _ _ _ _ _ _ _ _); [|auto with framed].
  destruct (py_getitem _ _); auto with framed.
Qed.

Lemma parse_framed self net number_code : framed (parse self net number_code).
Proof.
  unfold parse. apply framed_bind; [apply open_with_retry_framed|].
  intros [doc|]; [apply extract_framed | auto with framed].
Qed.

Lemma parse_run self net number_code t :
  parse self net number_code t
  = (t ++ parse_events self net number_code, parse_result self net number_code).
Proof. apply parse_framed. Qed.

(* ================================================================== *)
(** ** The retry loop *)
(* ================================================================== *)

Lemma requests_made_app (t1 t2 : Trace) :
  requests_made (t1 ++ t2) = (requests_made t1 + requests_made t2)%nat.
Proof. unfold requests_made. now rewrite filter_app, length_app. Qed.

Lemma open_with_retry_requests self net number_code budget :
  forall attempts,
    (requests_made (fst (open_with_retry self net number_code budget attempts []))
     <= budget)%nat.
Proof.
  induction budget as [|budget IH]; intros attempts; simpl.
  - unfold ret, requests_made. simpl. lia.
  - unfold bind, emit. simpl.
    assert (Hnext : forall w,
               (requests_made
                  (fst (bind (log WARNING w)
                          (fun _ => open_with_retry self net number_code budget
                                      (attempts + 1))
                          [Get (_base_url self ++ str_int number_code)%string 10]))
                <= S budget)%nat).
    { intros w. unfold bind, log, emit. simpl.
      rewrite (open_with_retry_framed self net number_code budget (attempts + 1) _).
      simpl. specialize (IH (attempts + 1)). unfold requests_made in *. simpl.
      lia. }
    destruct (net _ _) as [doc|e].
    + unfold ret, requests_made. simpl. lia.
    + destruct (isinstance_ConnectionError e);
        [|destruct (isinstance_Timeout e)]; try apply Hnext.
      unfold raise, requests_made. simpl. lia.
Qed.

Lemma open_with_retry_zero self net number_code attempts t :
  open_with_retry self net number_code 0 attempts t = (t, Ret None).
Proof. reflexivity. Qed.

Lemma open_with_retry_page self net number_code budget attempts t doc :
  net (url_of self number_code) (Z.to_nat attempts) = Page doc ->
  open_with_retry self net number_code (S budget) attempts t
  = (t ++ [Get (url_of self number_code) 10], Ret (Some doc)).
Proof.
  intros H. simpl. unfold bind, emit. fold (url_of self number_code).
  rewrite H. reflexivity.
Qed.

Lemma open_with_retry_retries self net number_code budget attempts t e :
  net (url_of self number_code) (Z.to_nat attempts) = Fails e ->
  transient e = true ->
  open_with_retry self net number_code (S budget) attempts t
  = open_with_retry self net number_code budget (attempts + 1)
      (t ++ [Get (url_of self number_code) 10; retry_warning e number_code]).
Proof.
  intros H Htr. simpl. unfold bind, emit. fold (url_of self number_code).
  rewrite H. unfold transient in Htr. unfold retry_warning.
  destruct (isinstance_ConnectionError e);
    [|destruct (isinstance_Timeout e); [|discriminate]];
    unfold bind, log, emit; simpl; rewrite <- app_assoc; reflexivity.
Qed.

Lemma open_with_retry_raises self net number_code budget attempts t e :
  net (url_of self number_code) (Z.to_nat attempts) = Fails e ->
  transient e = false ->
  open_with_retry self net number_code (S budget) attempts t
  = (t ++ [Get (url_of self number_code) 10], Raise (RequestsError e)).
Proof.
  intros H Htr. simpl. unfold bind, emit. fold (url_of self number_code).
  rewrite H. unfold transient in Htr.
  destruct (isinstance_ConnectionError e); [discriminate|].
  destruct (isinstance_Timeout e); [discriminate|]. reflexivity.
Qed.

(** What the loop ends with, read off the responses of the portal. *)
Lemma open_with_retry_cases self net number_code budget :
  forall attempts t, 0 <= attempts ->
    match snd (open_with_retry self net number_code budget attempts t) with
    | Ret (Some doc) =>
        exists k, (k < budget)%nat
          /\ net (url_of self number_code) (Z.to_nat attempts + k)%nat = Page doc
          /\ forall j, (j < k)%nat ->
               failed_transiently net (url_of self number_code) (Z.to_nat attempts + j)%nat
    | Ret None =>
        forall j, (j < budget)%nat ->
          failed_transiently net (url_of self number_code) (Z.to_nat attempts + j)%nat
    | Raise x =>
        exists k e, (k < budget)%nat
          /\ net (url_of self number_code) (Z.to_nat attempts + k)%nat = Fails e
          /\ transient e = false
          /\ x = RequestsError e
          /\ forall j, (j < k)%nat ->
               failed_transiently net (url_of self number_code) (Z.to_nat attempts + j)%nat
    end.
Proof.
  induction budget as [|budget IH]; intros attempts t Hnn; simpl.
  - intros j Hj. lia.
  - unfold bind, emit. fold (url_of self number_code).
    destruct (net (url_of self number_code) (Z.to_nat attempts)) as [doc|e] eqn:Hnet.
    + simpl. exists 0%nat. rewrite Nat.add_0_r. repeat split; [lia|exact Hnet|].
      intros j Hj. lia.
    + assert (Hstep : forall t',
                 transient e = true ->
                 match snd (open_with_retry self net number_code budget (attempts + 1) t') with
                 | Ret (Some doc) =>
                     exists k, (k < S budget)%nat
                       /\ net (url_of self number_code) (Z.to_nat attempts + k)%nat = Page doc
                       /\ forall j, (j < k)%nat ->
                            failed_transiently net (url_of self number_code) (Z.to_nat attempts + j)%nat
                 | Ret None =>
                     forall j, (j < S budget)%nat ->
                       failed_transiently net (url_of self number_code) (Z.to_nat attempts + j)%nat
                 | Raise x =>
                     exists k e', (k < S budget)%nat
                       /\ net (url_of self number_code) (Z.to_nat attempts + k)%nat = Fails e'
                       /\ transient e' = false
                       /\ x = RequestsError e'
                       /\ forall j, (j < k)%nat ->
                            failed_transiently net (url_of self number_code) (Z.to_nat attempts + j)%nat
                 end).
      { intros t' Htr.
        assert (Hidx : forall j, (Z.to_nat (attempts + 1) + j = Z.to_nat attempts + S j)%nat)
          by (intros j; lia).
        assert (Hhere : forall j, (j < 1)%nat ->
                  failed_transiently net (url_of self number_code) (Z.to_nat attempts + j)%nat).
        { intros j Hj. replace j with 0%nat by lia. rewrite Nat.add_0_r.
          exists e. split; assumption. }
        specialize (IH (attempts + 1) t' ltac:(lia)).
        destruct (snd (open_with_retry self net number_code budget (attempts + 1) t'))
          as [[doc|]|x].
        - destruct IH as (k & Hk & Hpage & Hbefore). exists (S k).
          rewrite Hidx in Hpage. repeat split; [lia|exact Hpage|].
          intros [|j] Hj; [apply Hhere; lia|].
          rewrite <- Hidx. apply Hbefore. lia.
        - intros [|j] Hj; [apply Hhere; lia|].
          rewrite <- Hidx. apply IH. lia.
        - destruct IH as (k & e' & Hk & Hfail & Hnt & Hx & Hbefore).
          exists (S k), e'. rewrite Hidx in Hfail.
          repeat split; [lia|exact Hfail|exact Hnt|exact Hx|].
          intros [|j] Hj; [apply Hhere; lia|].
          rewrite <- Hidx. apply Hbefore. lia. }
      unfold transient in Hstep.
      destruct (isinstance_ConnectionError e) eqn:Hc;
        [|destruct (isinstance_Timeout e) eqn:Ht]; simpl.
      * apply Hstep. reflexivity.
      * apply Hstep. reflexivity.
      * exists 0%nat, e. rewrite Nat.add_0_r. unfold transient. rewrite Hc, Ht.
        repeat split; [lia|exact Hnet|]. intros j Hj. lia.
Qed.

(* ================================================================== *)
(** ** Extraction *)
(* ================================================================== *)

Lemma truthy_nonempty {A : Type} (l : list A) :
  truthy l = true <-> l <> [].
Proof. destruct l; simpl; split; congruence. Qed.

(** The dict is built exactly when the nine selections are non-empty. *)
Lemma build_student_dict_some number_code
    nombre plantel clave rvoe matricula promedio periodo tipo cert d :
  build_student_dict number_code
    nombre plantel clave rvoe matricula promedio periodo tipo cert = Some d ->
  exists n0 p0 c0 r0 m0 a0 q0 t0 f0,
    first nombre = Some n0 /\ first plantel = Some p0 /\ first clave = Some c0
    /\ first rvoe = Some r0 /\ first matricula = Some m0
    /\ first promedio = Some a0 /\ first periodo = Some q0
    /\ first tipo = Some t0 /\ first cert = Some f0
    /\ d = [ ("number"%string, PyInt number_code);
             ("nombre"%string, string_of n0);
             ("plantel"%string, string_of p0);
             ("clave_trabajo"%string, string_of c0);
             ("rvoe"%string, string_of r0);
             ("matricula"%string, string_of m0);
             ("promedio"%string, string_of a0);
             ("periodo"%string, string_of q0);
             ("tipo_certificado"%string, string_of t0);
             ("certificado"%string, string_of f0) ].
Proof.
  unfold build_student_dict.
  destruct (first nombre) as [n0|]; [|discriminate].
  destruct (first plantel) as [p0|]; [|discriminate].
  destruct (first clave) as [c0|]; [|discriminate].
  destruct (first rvoe) as [r0|]; [|discriminate].
  destruct (first matricula) as [m0|]; [|discriminate].
  destruct (first promedio) as [a0|]; [|discriminate].
  destruct (first periodo) as [q0|]; [|discriminate].
  destruct (first tipo) as [t0|]; [|discriminate].
  destruct (first cert) as [f0|]; [|discriminate].
  intros H. injection H as <-.
  exists n0, p0, c0, r0, m0, a0, q0, t0, f0. repeat split; reflexivity.
Qed.

Lemma build_student_dict_none number_code
    nombre plantel clave rvoe matricula promedio periodo tipo cert :
  build_student_dict number_code
    nombre plantel clave rvoe matricula promedio periodo tipo cert = None <->
  nombre = [] \/ plantel = [] \/ clave = [] \/ rvoe = [] \/ matricula = []
  \/ promedio = [] \/ periodo = [] \/ tipo = [] \/ cert = [].
Proof.
  unfold build_student_dict.
  destruct nombre, plantel, clave, rvoe, matricula, promedio, periodo, tipo, cert;
    simpl; split; intros H; try discriminate; try reflexivity; try tauto;
    repeat (destruct H as [H|H]; try discriminate).
Qed.

(** [extract] returns [extract_value]: the lookup of ['certificado'] in a
    freshly built dict cannot raise. *)
Lemma extract_result self doc number_code t :
  snd (extract self doc number_code t) = Ret (extract_value self doc number_code).
Proof.
  unfold extract, extract_value, bind, log, log_exception, emit, ret. simpl.
  destruct (truthy (doc (_getField self "tmpNombrePlantel"))); [|reflexivity].
  simpl.
  destruct (build_student_dict _ _ _ _ _ _ _ _ _ _) as [d|] eqn:Hd; [|reflexivity].
  apply build_student_dict_some in Hd.
  destruct Hd as (n0 & p0 & c0 & r0 & m0 & a0 & q0 & t0 & f0 & _ & _ & _ & _ & _
                  & _ & _ & _ & _ & ->).
  reflexivity.
Qed.

Lemma extract_requests self doc number_code :
  requests_made (fst (extract self doc number_code [])) = 0%nat.
Proof.
  unfold extract, bind, log, log_exception, emit, ret, raise. simpl.
  destruct (truthy _); [|reflexivity]. simpl.
  destruct (build_student_dict _ _ _ _ _ _ _ _ _ _); [|reflexivity].
  destruct (py_getitem _ _); reflexivity.
Qed.

Lemma extract_value_outcome self doc number_code :
  exists o, outcome_of (extract_value self doc number_code) = Some o.
Proof.
  unfold extract_value. destruct (truthy _); [|now exists NotFound].
  destruct (build_student_dict _ _ _ _ _ _ _ _ _ _) as [d|];
    [now exists (Found d) | now exists FetchFailed].
Qed.

Lemma extract_value_failed_iff self doc number_code :
  extract_value self doc number_code = PyBool false
  <-> page_shape_failure self doc.
Proof.
  unfold extract_value, page_shape_failure.
  destruct (truthy (doc (_getField self "tmpNombrePlantel"))) eqn:Hp.
  - apply truthy_nonempty in Hp.
    destruct (build_student_dict _ _ _ _ _ _ _ _ _ _) as [d|] eqn:Hd.
    + split; [discriminate|]. intros (_ & f & Hf & Hempty). exfalso.
      assert (Hnone : build_student_dict number_code
                (doc (_getField self "tmpNombreCompleto"))
                (doc (_getField self "tmpNombrePlantel"))
                (doc (_getField self "tmpClaveCct"))
                (doc (_getField self "tmpRvoe"))
                (doc (_getField self "matricula"))
                (doc (_getField self "promedio"))
                (doc (_getField self "tmpPeriodo"))
                (doc (_getField self "tmpTipoCertificado"))
                (doc (_getField self "tmpFolioDigital")) = None).
      { apply build_student_dict_none. simpl in Hf.
        repeat (destruct Hf as [<-|Hf]; [tauto|]). destruct Hf. }
      congruence.
    + split; [|reflexivity]. intros _. split; [exact Hp|].
      apply build_student_dict_none in Hd.
      destruct Hd as [H|[H|[H|[H|[H|[H|[H|[H|H]]]]]]]].
      * exists "tmpNombreCompleto"%string. simpl. tauto.
      * contradiction.
      * exists "tmpClaveCct"%string. simpl. tauto.
      * exists "tmpRvoe"%string. simpl. tauto.
      * exists "matricula"%string. simpl. tauto.
      * exists "promedio"%string. simpl. tauto.
      * exists "tmpPeriodo"%string. simpl. tauto.
      * exists "tmpTipoCertificado"%string. simpl. tauto.
      * exists "tmpFolioDigital"%string. simpl. tauto.
  - split; [discriminate|]. intros (Hne & _).
    apply truthy_nonempty in Hne. congruence.
Qed.

(* ================================================================== *)
(** ** [parse] as a whole *)
(* ================================================================== *)

(** [parse] in terms of its two phases. *)
Lemma parse_result_phases self net number_code :
  parse_result self net number_code
  = match snd (open_with_retry self net number_code
                 (Z.to_nat (_retry_attempts self)) 0 []) with
    | Ret (Some doc) => Ret (extract_value self doc number_code)
    | Ret None => Ret (PyBool false)
    | Raise x => Raise x
    end.
Proof.
  unfold parse_result, parse, bind.
  destruct (open_with_retry _ _ _ _ _ _) as [t [[doc|]|x]]; simpl.
  - apply extract_result.
  - reflexivity.
  - reflexivity.
Qed.

(** Every value that [parse] returns is one of the three outcomes. *)
Lemma parse_returns_outcome self net number_code v :
  parse_result self net number_code = Ret v ->
  exists o, outcome_of v = Some o.
Proof.
  rewrite parse_result_phases.
  destruct (snd (open_with_retry _ _ _ _ _ _)) as [[doc|]|x]; intros H;
    try discriminate; injection H as <-.
  - apply extract_value_outcome.
  - now exists FetchFailed.
Qed.

Lemma parse_requests self net number_code :
  (requests_made (parse_events self net number_code)
   <= Z.to_nat (_retry_attempts self))%nat.
Proof.
  unfold parse_events, parse, bind.
  pose proof (open_with_retry_requests self net number_code
                (Z.to_nat (_retry_attempts self)) 0) as Hloop.
  destruct (open_with_retry _ _ _ _ _ _) as [t [[doc|]|x]]; simpl in *.
  - rewrite (extract_framed self doc number_code t). simpl.
    rewrite requests_made_app, extract_requests. lia.
  - unfold log_exception, emit. simpl. rewrite requests_made_app.
    unfold requests_made at 2. simpl. lia.
  - exact Hloop.
Qed.

(* ================================================================== *)
(** ** The batch *)
(* ================================================================== *)

Lemma py_range_length (start stop : Z) :
  List.length (py_range start stop) = Z.to_nat (stop - start).
Proof. unfold py_range. now rewrite length_map, length_seq. Qed.

Lemma py_range_nth (start stop : Z) (i : nat) :
  (i < Z.to_nat (stop - start))%nat ->
  nth_error (py_range start stop) i = Some (start + Z.of_nat i).
Proof.
  intros Hi. unfold py_range. rewrite nth_error_map.
  rewrite nth_error_nth' with (d := 0%nat) by (now rewrite length_seq).
  rewrite seq_nth by exact Hi. reflexivity.
Qed.

Lemma cert_range_length self file_no :
  List.length (cert_range self file_no) = Z.to_nat (_batch_size self).
Proof. unfold cert_range. rewrite py_range_length. f_equal. lia. Qed.

Lemma cert_range_nth self file_no (i : nat) :
  (i < Z.to_nat (_batch_size self))%nat ->
  nth_error (cert_range self file_no) i
  = Some (file_no * _batch_size self + Z.of_nat i).
Proof.
  intros Hi. unfold cert_range. rewrite py_range_nth.
  - f_equal. lia.
  - replace (_batch_size self * file_no + _batch_size self
             - _batch_size self * file_no) with (_batch_size self) by lia.
    exact Hi.
Qed.

(** The sequential iteration when every call returns. *)
Lemma list_of_map_returns self net (ids : list Z) :
  (forall x, In x ids -> exists v, parse_result self net x = Ret v) ->
  forall t,
    list_of_map (parse self net) ids t
    = (t ++ List.concat (map (parse_events self net) ids),
       Ret (map (fun x => value_of (parse_result self net x)) ids)).
Proof.
  induction ids as [|x ids IH]; intros Hall t; simpl.
  - unfold ret. now rewrite app_nil_r.
  - unfold bind. rewrite parse_run.
    destruct (Hall x (or_introl eq_refl)) as [v Hv]. rewrite Hv.
    rewrite IH by (intros y Hy; apply Hall; now right).
    unfold ret. simpl. now rewrite app_assoc.
Qed.

(** The sequential iteration stops at the first call that raises. *)
Lemma list_of_map_raises self net (ids : list Z) x e :
  In x ids -> parse_result self net x = Raise e ->
  forall t, exists e', snd (list_of_map (parse self net) ids t) = Raise e'.
Proof.
  induction ids as [|y ids IH]; intros Hin Hx t; [destruct Hin|].
  simpl. unfold bind. rewrite parse_run.
  destruct (parse_result self net y) as [v|e'] eqn:Hy; [|now exists e'].
  destruct Hin as [->|Hin]; [congruence|].
  destruct (IH Hin Hx (t ++ parse_events self net y)) as [e' He'].
  destruct (list_of_map _ _ _) as [t' [ys|e'']]; simpl in *;
    [discriminate | now exists e''].
Qed.

Lemma list_count_le (l : list PyVal) (v : PyVal) :
  0 <= list_count l v <= Z.of_nat (List.length l).
Proof.
  unfold list_count. pose proof (filter_length_le (fun x => py_eq x v) l). lia.
Qed.

Lemma batch_items_length self net file_no :
  List.length (batch_items self net file_no) = Z.to_nat (_batch_size self).
Proof. unfold batch_items. now rewrite length_map, cert_range_length. Qed.

(** A sequential batch in which every call returns. *)
Lemma retrieveBatch_sequential self net schedule file_no t :
  (forall x, In x (cert_range self file_no) ->
             exists v, parse_result self net x = Ret v) ->
  retrieveBatch self net schedule file_no false t
  = (t ++ [Log INFO false [Lit "Starting batch number "; Fmt (PyInt file_no)]]
       ++ List.concat (map (parse_events self net) (cert_range self file_no))
       ++ [Log INFO false [Lit "Completed batch number "; Fmt (PyInt file_no)]]
       ++ failure_warnings self
            (list_count (batch_items self net file_no) (PyBool false)),
     Ret (ListObj (batch_items self net file_no))).
Proof.
  intros Hall. unfold retrieveBatch. fold (cert_range self file_no).
  unfold bind at 1. unfold log at 1, emit. simpl.
  unfold bind at 1. unfold ret at 1.
  unfold bind at 1. unfold py_list. unfold bind at 1.
  rewrite (list_of_map_returns self net _ Hall). fold (batch_items self net file_no).
  unfold ret at 1. unfold bind at 1. unfold log at 1, emit.
  unfold bind at 1. unfold count_method, ret at 1.
  unfold failure_warnings, failure_rate.
  pose proof (list_count_le (batch_items self net file_no) (PyBool false)) as Hle.
  rewrite batch_items_length in Hle.
  destruct (list_count (batch_items self net file_no) (PyBool false) >=? 1) eqn:Hf.
  - unfold bind, log, emit, py_truediv.
    destruct (_batch_size self =? 0) eqn:Hz; [lia|].
    unfold ret. simpl. f_equal. rewrite <- !app_assoc. reflexivity.
  - unfold bind, ret. simpl. f_equal. rewrite <- !app_assoc. reflexivity.
Qed.

(** A threaded batch: every call is made, and then [count] is looked up
    on the generator. *)
Lemma retrieveBatch_threaded self net schedule file_no t :
  retrieveBatch self net schedule file_no true t
  = (t ++ [Log INFO false [Lit "Starting batch number "; Fmt (PyInt file_no)]]
       ++ schedule (map (parse_events self net) (cert_range self file_no))
       ++ [Log INFO false [Lit "Completed batch number "; Fmt (PyInt file_no)]],
     Raise (AttributeError "generator" "count")).
Proof.
  unfold retrieveBatch. fold (cert_range self file_no).
  unfold bind, log, emit, executor_map, ret, count_method, raise. simpl.
  rewrite map_map. unfold parse_events. f_equal. rewrite <- !app_assoc. reflexivity.
Qed.

(* ================================================================== *)
(** ** The field locator *)
(* ================================================================== *)

Lemma substring_prefix (a b : string) :
  substring 0 (String.length a) (a ++ b) = a.
Proof.
  induction a as [|c a IH]; simpl.
  - destruct b; reflexivity.
  - now rewrite IH.
Qed.

Lemma substring_skip (a b : string) (n m : nat) :
  substring (String.length a + n) m (a ++ b) = substring n m b.
Proof. induction a as [|c a IH]; simpl; [reflexivity | exact IH]. Qed.

(** C8: the field locator is a total function of the field name; the
    selector it returns is the base prefix, the field name, an underscore,
    the field name again and the suffix ["_id"], so that the field name
    stands at two places of the selector and nowhere else in the part
    that follows the prefix. *)
Theorem getField_convention (self : Attrs) (field_name : string) :
  let base := _base_field self in
  let selector := _getField self field_name in
  let b := String.length base in
  let n := String.length field_name in
  selector = (base ++ field_name ++ "_" ++ field_name ++ "_id")%string
  /\ String.length selector = (b + 2 * n + 4)%nat
  /\ substring 0 b selector = base
  /\ substring b n selector = field_name
  /\ substring (b + n) 1 selector = "_"%string
  /\ substring (b + (n + 1)) n selector = field_name
  /\ substring (b + (n + 1 + n)) 3 selector = "_id"%string
  /\ (forall other, _getField self other = selector -> other = field_name).
Proof.
  cbv zeta. unfold _getField at 1.
  split; [reflexivity|].
  split; [apply getField_length|].
  unfold _getField.
  split; [apply substring_prefix|].
  split.
  { rewrite <- (Nat.add_0_r (String.length (_base_field self))).
    rewrite substring_skip. apply substring_prefix. }
  split.
  { rewrite substring_skip.
    rewrite <- (Nat.add_0_r (String.length field_name)).
    rewrite substring_skip. simpl. now destruct (field_name ++ "_id")%string. }
  split.
  { rewrite substring_skip.
    replace (String.length field_name + 1)%nat
      with (String.length field_name + 1 + 0)%nat by lia.
    rewrite <- Nat.add_assoc. rewrite substring_skip.
    change ("_" ++ field_name ++ "_id")%string
      with (String "_" (field_name ++ "_id"))%string.
    simpl substring at 1. apply substring_prefix. }
  split.
  { rewrite substring_skip.
    rewrite <- Nat.add_assoc. rewrite substring_skip.
    change ("_" ++ field_name ++ "_id")%string
      with (String "_" (field_name ++ "_id"))%string.
    simpl substring at 1.
    rewrite <- (Nat.add_0_r (String.length field_name)).
    rewrite substring_skip. reflexivity. }
  intros other H. now apply getField_injective in H.
Qed.

(* ================================================================== *)
(** ** The resolver *)
(* ================================================================== *)

Lemma batch_items_outcomes self net file_no :
  (forall x, In x (cert_range self file_no) ->
             exists v, parse_result self net x = Ret v) ->
  Forall (fun v => exists o, outcome_of v = Some o) (batch_items self net file_no).
Proof.
  intros Hall. unfold batch_items. apply Forall_forall. intros v Hv.
  apply in_map_iff in Hv. destruct Hv as (x & <- & Hx).
  destruct (Hall x Hx) as [w Hw]. rewrite Hw. simpl.
  now apply parse_returns_outcome in Hw.
Qed.

Lemma eq_False_is_FetchFailed (v : PyVal) :
  (exists o, outcome_of v = Some o) ->
  py_eq v (PyBool false) = is_FetchFailed v.
Proof.
  intros [o Ho]. unfold is_FetchFailed.
  destruct v as [|[|]|z|s|d]; simpl in *; try discriminate; reflexivity.
Qed.





(** C4 (as stated, refuted): three connection errors and then a page
    that shows the institution name without the other nodes; the fourth
    attempt succeeds and the value returned is the FetchFailed one. *)
Lemma fourth_attempt_page_shape_failure :
  let net := Fixtures.fails_then 3 ConnectionError
               (Page (Fixtures.plantel_only_doc CertificateParser)) in
  let url := url_of CertificateParser 37 in
  net url 0%nat = Fails ConnectionError
  /\ net url 1%nat = Fails ConnectionError
  /\ net url 2%nat = Fails ConnectionError
  /\ net url 3%nat = Page (Fixtures.plantel_only_doc CertificateParser)
  /\ parse_result CertificateParser net 37 = Ret (PyBool false)
  /\ outcome_of (PyBool false) = Some FetchFailed.
Proof. cbv zeta. repeat split; reflexivity. Qed.

(** C4 (amended): with four attempts allowed, [parse] makes at most four
    requests.  When the first three fail with a connection error or a
    timeout and the fourth succeeds, [parse] returns what extraction
    gives on the fetched page, after one warning per failed attempt
    worded after the kind of failure: Found or NotFound, unless the page
    shows the institution name but lacks another node, which gives
    FetchFailed.  When all four fail in that way, [parse] returns
    FetchFailed after four such warnings and one error record. *)
Theorem retry_ceiling self net number_code :
  _retry_attempts self = 4 ->
  let url := url_of self number_code in
  (requests_made (parse_events self net number_code) <= 4)%nat
  /\ (forall e0 e1 e2 doc,
        net url 0%nat = Fails e0 -> transient e0 = true ->
        net url 1%nat = Fails e1 -> transient e1 = true ->
        net url 2%nat = Fails e2 -> transient e2 = true ->
        net url 3%nat = Page doc ->
        parse_result self net number_code
        = Ret (extract_value self doc number_code)
        /\ parse_events self net number_code
           = [ Get url 10; retry_warning e0 number_code;
               Get url 10; retry_warning e1 number_code;
               Get url 10; retry_warning e2 number_code;
               Get url 10 ] ++ fst (extract self doc number_code [])
        /\ (~ page_shape_failure self doc ->
            extract_value self doc number_code = PyNone
            \/ exists record, extract_value self doc number_code = PyDict record)
        /\ (page_shape_failure self doc ->
            extract_value self doc number_code = PyBool false))
  /\ (forall e0 e1 e2 e3,
        net url 0%nat = Fails e0 -> transient e0 = true ->
        net url 1%nat = Fails e1 -> transient e1 = true ->
        net url 2%nat = Fails e2 -> transient e2 = true ->
        net url 3%nat = Fails e3 -> transient e3 = true ->
        parse_result self net number_code = Ret (PyBool false)
        /\ parse_events self net number_code
           = [ Get url 10; retry_warning e0 number_code;
               Get url 10; retry_warning e1 number_code;
               Get url 10; retry_warning e2 number_code;
               Get url 10; retry_warning e3 number_code;
               Log ERROR true [Lit "Connection error on ";
                               Fmt (PyInt number_code)] ]).
Proof.
  intros H4 url. split; [|split].
  - pose proof (parse_requests self net number_code) as H. rewrite H4 in H.
    exact H.
  - intros e0 e1 e2 doc H0 T0 H1 T1 H2 T2 H3.
    assert (Hrun : parse self net number_code []
                   = extract self doc number_code
                       [ Get url 10; retry_warning e0 number_code;
                         Get url 10; retry_warning e1 number_code;
                         Get url 10; retry_warning e2 number_code;
                         Get url 10 ]).
    { unfold parse, bind. rewrite H4. change (Z.to_nat 4) with 4%nat.
      rewrite (open_with_retry_retries self net number_code 3 0 [] e0 H0 T0).
      rewrite (open_with_retry_retries self net number_code 2 (0 + 1) _ e1 H1 T1).
      rewrite (open_with_retry_retries self net number_code 1 (0 + 1 + 1) _ e2 H2 T2).
      rewrite (open_with_retry_page self net number_code 0 (0 + 1 + 1 + 1) _ doc H3).
      reflexivity. }
    unfold parse_result, parse_events. rewrite Hrun.
    rewrite (extract_framed self doc number_code _). simpl.
    split; [apply (extract_result self doc number_code [])|].
    split; [reflexivity|]. split.
    + intros Hshape.
      destruct (extract_value self doc number_code) as [|[|]|z|s|d] eqn:Hv.
      * now left.
      * destruct (extract_value_outcome self doc number_code) as [o Ho].
        rewrite Hv in Ho. discriminate.
      * exfalso. apply Hshape. now apply (extract_value_failed_iff self doc number_code).
      * destruct (extract_value_outcome self doc number_code) as [o Ho].
        rewrite Hv in Ho. discriminate.
      * destruct (extract_value_outcome self doc number_code) as [o Ho].
        rewrite Hv in Ho. discriminate.
      * right. now exists d.
    + apply extract_value_failed_iff.
  - intros e0 e1 e2 e3 H0 T0 H1 T1 H2 T2 H3 T3.
    assert (Hrun : parse self net number_code []
                   = ([ Get url 10; retry_warning e0 number_code;
                        Get url 10; retry_warning e1 number_code;
                        Get url 10; retry_warning e2 number_code;
                        Get url 10; retry_warning e3 number_code;
                        Log ERROR true [Lit "Connection error on ";
                                        Fmt (PyInt number_code)] ],
                      Ret (PyBool false))).
    { unfold parse, bind. rewrite H4. change (Z.to_nat 4) with 4%nat.
      rewrite (open_with_retry_retries self net number_code 3 0 [] e0 H0 T0).
      rewrite (open_with_retry_retries self net number_code 2 (0 + 1) _ e1 H1 T1).
      rewrite (open_with_retry_retries self net number_code 1 (0 + 1 + 1) _ e2 H2 T2).
      rewrite (open_with_retry_retries self net number_code 0 (0 + 1 + 1 + 1) _ e3 H3 T3).
      rewrite open_with_retry_zero. reflexivity. }
    unfold parse_result, parse_events. rewrite Hrun. split; reflexivity.
Qed.

Lemma retry_ceiling_witness :
  (requests_made
     (parse_events CertificateParser
        (Fixtures.fails_then 3 ReadTimeout
           (Page (Fixtures.full_doc CertificateParser "A123"))) 37) <= 4)%nat
  /\ parse_result CertificateParser
       (Fixtures.fails_then 3 ReadTimeout
          (Page (Fixtures.full_doc CertificateParser "A123"))) 37
     = Ret (extract_value CertificateParser
              (Fixtures.full_doc CertificateParser "A123") 37)
  /\ parse_result CertificateParser
       (Fixtures.fails_then 4 ConnectTimeout (Page Fixtures.empty_doc)) 37
     = Ret (PyBool false).
Proof.
  split; [|split].
  - exact (proj1 (retry_ceiling CertificateParser
                    (Fixtures.fails_then 3 ReadTimeout
                       (Page (Fixtures.full_doc CertificateParser "A123"))) 37
                    eq_refl)).
  - exact (proj1 (proj1 (proj2 (retry_ceiling CertificateParser
                    (Fixtures.fails_then 3 ReadTimeout
                       (Page (Fixtures.full_doc CertificateParser "A123"))) 37
                    eq_refl))
             ReadTimeout ReadTimeout ReadTimeout
             (Fixtures.full_doc CertificateParser "A123")
             eq_refl eq_refl eq_refl eq_refl eq_refl eq_refl eq_refl)).
  - exact (proj1 (proj2 (proj2 (retry_ceiling CertificateParser
                    (Fixtures.fails_then 4 ConnectTimeout (Page Fixtures.empty_doc)) 37
                    eq_refl))
             ConnectTimeout ConnectTimeout ConnectTimeout ConnectTimeout
             eq_refl eq_refl eq_refl eq_refl eq_refl eq_refl eq_refl eq_refl)).
Defined.

(* ================================================================== *)
(** ** All-or-nothing extraction *)
(* ================================================================== *)

Lemma longer_list_has_fresh_element (l l' : list string) :
  NoDup l -> (List.length l' < List.length l)%nat ->
  exists f, In f l /\ ~ In f l'.
Proof.
  intros Hnd Hlen.
  destruct (Forall_Exists_dec (fun x => In x l')
              (fun x => in_dec string_dec x l') l) as [Hall|Hex].
  - exfalso. rewrite Forall_forall in Hall.
    pose proof (NoDup_incl_length Hnd Hall). lia.
  - apply Exists_exists in Hex. exact Hex.
Qed.

Lemma full_doc_other_selector self folio f :
  f <> "tmpNombrePlantel"%string -> ~ In f other_fields ->
  Fixtures.full_doc self folio (_getField self f) = [].
Proof.
  intros Hp Hother. unfold Fixtures.full_doc.
  destruct (String.eqb_spec (_getField self f) (_getField self "tmpFolioDigital"))
    as [Heq|_].
  { apply getField_injective in Heq. subst f. exfalso. apply Hother.
    simpl. tauto. }
  destruct (existsb _ _) eqn:Hex; [|reflexivity].
  apply existsb_exists in Hex. destruct Hex as (s & Hs & Heq).
  apply String.eqb_eq in Heq. subst s.
  apply in_map_iff in Hs. destruct Hs as (g & Hg & Hin).
  apply getField_injective in Hg. subst g.
  destruct Hin as [Hin|Hin]; [congruence | contradiction].
Qed.

(** C5 (as stated, refuted): besides the institution name there are no
    nine field names whose selectors are all required.  On the page that
    holds the institution name and the eight nodes that [parse] reads,
    one of any nine names selects nothing, and the certificate is
    returned all the same. *)
Lemma no_nine_other_required_selectors :
  ~ exists others : list string,
      NoDup others
      /\ List.length others = 9%nat
      /\ ~ In "tmpNombrePlantel"%string others
      /\ forall (doc : Document) (f : string),
           doc (_getField CertificateParser "tmpNombrePlantel") <> [] ->
           In f others ->
           doc (_getField CertificateParser f) = [] ->
           snd (extract CertificateParser doc 37 []) = Ret (PyBool false).
Proof.
  intros (others & Hnd & Hlen & Hnp & Hall).
  destruct (longer_list_has_fresh_element others other_fields Hnd) as (f & Hf & Hfresh).
  { rewrite Hlen. simpl. lia. }
  assert (Hfp : f <> "tmpNombrePlantel"%string) by (intros ->; contradiction).
  specialize (Hall (Fixtures.full_doc CertificateParser "A123") f).
  rewrite extract_result in Hall.
  assert (Hfound : exists record,
             extract_value CertificateParser
               (Fixtures.full_doc CertificateParser "A123") 37 = PyDict record)
    by (eexists; reflexivity).
  destruct Hfound as [record Hrecord]. rewrite Hrecord in Hall.
  assert (Hfalse : Ret (PyDict record) = Ret (PyBool false)).
  { apply Hall.
    - discriminate.
    - exact Hf.
    - now apply full_doc_other_selector. }
  discriminate.
Qed.

(** C5 (amended): extraction is all-or-nothing over the nine selectors
    that [parse] reads, the institution name and eight others (the
    identifier is the argument of [parse], not a node of the page).  A
    page without the institution name gives NotFound; a page with it on
    which one of the eight other selectors matches nothing gives
    FetchFailed; a page with all nine gives the certificate.  Every
    certificate returned has the ten keys, [number] bound to the
    identifier and each other key to the text of the first node of its
    selector, [certificado] being the folio. *)
Theorem extraction_all_or_nothing self doc number_code :
  let select := fun f : string => doc (_getField self f) in
  let outcome := snd (extract self doc number_code []) in
  List.length other_fields = 8%nat
  /\ (select "tmpNombrePlantel"%string = [] -> outcome = Ret PyNone)
  /\ (select "tmpNombrePlantel"%string <> [] ->
      (exists f, In f other_fields /\ select f = []) ->
      outcome = Ret (PyBool false))
  /\ (select "tmpNombrePlantel"%string <> [] ->
      (forall f, In f other_fields -> select f <> []) ->
      exists record, outcome = Ret (PyDict record))
  /\ (forall record, outcome = Ret (PyDict record) ->
      select "tmpNombrePlantel"%string <> []
      /\ (forall f, In f other_fields -> select f <> [])
      /\ map fst record = record_keys
      /\ exists n0 p0 c0 r0 m0 a0 q0 t0 f0,
           first (select "tmpNombreCompleto"%string) = Some n0
           /\ first (select "tmpNombrePlantel"%string) = Some p0
           /\ first (select "tmpClaveCct"%string) = Some c0
           /\ first (select "tmpRvoe"%string) = Some r0
           /\ first (select "matricula"%string) = Some m0
           /\ first (select "promedio"%string) = Some a0
           /\ first (select "tmpPeriodo"%string) = Some q0
           /\ first (select "tmpTipoCertificado"%string) = Some t0
           /\ first (select "tmpFolioDigital"%string) = Some f0
           /\ record = [ ("number"%string, PyInt number_code);
                         ("nombre"%string, string_of n0);
                         ("plantel"%string, string_of p0);
                         ("clave_trabajo"%string, string_of c0);
                         ("rvoe"%string, string_of r0);
                         ("matricula"%string, string_of m0);
                         ("promedio"%string, string_of a0);
                         ("periodo"%string, string_of q0);
                         ("tipo_certificado"%string, string_of t0);
                         ("certificado"%string, string_of f0) ]).
Proof.
  cbv zeta. rewrite extract_result.
  split; [reflexivity|]. split; [|split; [|split]].
  - intros Hp. unfold extract_value. rewrite Hp. reflexivity.
  - intros Hp Hmissing. f_equal. apply extract_value_failed_iff.
    split; assumption.
  - intros Hp Hall.
    destruct (extract_value self doc number_code) as [|[|]|z|s|d] eqn:Hv.
    + exfalso. unfold extract_value in Hv.
      apply truthy_nonempty in Hp. rewrite Hp in Hv.
      destruct (build_student_dict _ _ _ _ _ _ _ _ _ _); discriminate.
    + destruct (extract_value_outcome self doc number_code) as [o Ho].
      rewrite Hv in Ho. discriminate.
    + apply extract_value_failed_iff in Hv.
      destruct Hv as (_ & f & Hf & Hempty). now destruct (Hall f Hf).
    + destruct (extract_value_outcome self doc number_code) as [o Ho].
      rewrite Hv in Ho. discriminate.
    + destruct (extract_value_outcome self doc number_code) as [o Ho].
      rewrite Hv in Ho. discriminate.
    + now exists d.
  - intros record Hrecord. injection Hrecord as Hrecord.
    assert (Hshape : ~ page_shape_failure self doc).
    { intros Hshape. apply (extract_value_failed_iff self doc number_code) in Hshape.
      congruence. }
    unfold extract_value in Hrecord.
    destruct (truthy (doc (_getField self "tmpNombrePlantel"))) eqn:Hp;
      [|discriminate].
    apply truthy_nonempty in Hp.
    destruct (build_student_dict _ _ _ _ _ _ _ _ _ _) as [d|] eqn:Hd;
      [|discriminate].
    injection Hrecord as ->.
    apply build_student_dict_some in Hd.
    destruct Hd as (n0 & p0 & c0 & r0 & m0 & a0 & q0 & t0 & f0 & Hd).
    split; [exact Hp|]. split.
    { intros f Hf Hempty. apply Hshape. split; [exact Hp|]. now exists f. }
    split.
    { destruct Hd as (_ & _ & _ & _ & _ & _ & _ & _ & _ & ->). reflexivity. }
    exists n0, p0, c0, r0, m0, a0, q0, t0, f0. exact Hd.
Qed.

Lemma extraction_all_or_nothing_witness :
  snd (extract CertificateParser Fixtures.empty_doc 37 []) = Ret PyNone
  /\ snd (extract CertificateParser
            (Fixtures.plantel_only_doc CertificateParser) 37 [])
     = Ret (PyBool false)
  /\ exists record,
       snd (extract CertificateParser
              (Fixtures.full_doc CertificateParser "A123") 37 [])
       = Ret (PyDict record).
Proof.
  split; [|split].
  - apply (proj1 (proj2 (extraction_all_or_nothing CertificateParser
                           Fixtures.empty_doc 37))).
    reflexivity.
  - apply (proj1 (proj2 (proj2 (extraction_all_or_nothing CertificateParser
                           (Fixtures.plantel_only_doc CertificateParser) 37)))).
    + discriminate.
    + exists "tmpRvoe"%string. split; [simpl; tauto | reflexivity].
  - apply (proj1 (proj2 (proj2 (proj2 (extraction_all_or_nothing CertificateParser
                           (Fixtures.full_doc CertificateParser "A123") 37))))).
    + discriminate.
    + intros f Hf. simpl in Hf.
      repeat (destruct Hf as [<-|Hf]; [discriminate|]). destruct Hf.
Defined.

(* ================================================================== *)
(** ** Batches: what is returned *)
(* ================================================================== *)

(** Deciding, by evaluation, that every call of a list returns. *)
Lemma returns_by_evaluation self net (ids : list Z) :
  forallb (fun x => match parse_result self net x with
                    | Ret _ => true
                    | Raise _ => false
                    end) ids = true ->
  forall x, In x ids -> exists v, parse_result self net x = Ret v.
Proof.
  intros H x Hx. rewrite forallb_forall in H. specialize (H x Hx).
  destruct (parse_result self net x) as [v|e]; [now exists v | discriminate].
Qed.

Lemma results_of_futures self net (ids : list Z) :
  (forall x, In x ids -> exists v, parse_result self net x = Ret v) ->
  forall t,
    results_of (map (parse_result self net) ids) t
    = (t, Ret (map (fun x => value_of (parse_result self net x)) ids)).
Proof.
  induction ids as [|x ids IH]; intros Hall t; simpl; [reflexivity|].
  destruct (Hall x (or_introl eq_refl)) as [v Hv]. rewrite Hv. simpl.
  unfold bind. rewrite IH by (intros y Hy; apply Hall; now right).
  reflexivity.
Qed.

Lemma batch_items_nth self net file_no (i : nat) :
  (forall x, In x (cert_range self file_no) ->
             exists v, parse_result self net x = Ret v) ->
  (i < Z.to_nat (_batch_size self))%nat ->
  exists v, nth_error (batch_items self net file_no) i = Some v
            /\ parse_result self net (file_no * _batch_size self + Z.of_nat i)
               = Ret v.
Proof.
  intros Hall Hi. unfold batch_items. rewrite nth_error_map.
  pose proof (cert_range_nth self file_no i Hi) as Hnth. rewrite Hnth. simpl.
  destruct (Hall _ (nth_error_In _ _ Hnth)) as [v Hv].
  exists v. rewrite Hv. split; reflexivity.
Qed.

(** C1: on every batch in which each identifier resolves, the sequential
    mode returns the list of the outcomes, and the futures of the
    threaded mode hold the same values at the same positions; but the
    threaded mode ends in an [AttributeError] instead of returning them,
    so that the two modes do not return the same sequence. *)
Theorem threaded_batch_differs self net schedule file_no :
  (forall x, In x (cert_range self file_no) ->
             exists v, parse_result self net x = Ret v) ->
  snd (retrieveBatch self net schedule file_no false [])
  = Ret (ListObj (batch_items self net file_no))
  /\ snd (executor_map self net schedule (cert_range self file_no) [])
     = Ret (ResultIterator (map (parse_result self net) (cert_range self file_no)))
  /\ snd (results_of (map (parse_result self net) (cert_range self file_no)) [])
     = Ret (batch_items self net file_no)
  /\ snd (retrieveBatch self net schedule file_no true [])
     = Raise (AttributeError "generator" "count")
  /\ snd (retrieveBatch self net schedule file_no true [])
     <> snd (retrieveBatch self net schedule file_no false []).
Proof.
  intros Hall.
  rewrite (retrieveBatch_sequential self net schedule file_no [] Hall).
  rewrite retrieveBatch_threaded. simpl.
  split; [reflexivity|]. split.
  { unfold executor_map. simpl. now rewrite map_map. }
  split.
  { rewrite (results_of_futures self net _ Hall). reflexivity. }
  split; [reflexivity | discriminate].
Qed.

Lemma threaded_batch_differs_witness :
  snd (retrieveBatch CertificateParser (Fixtures.mixed CertificateParser)
         Fixtures.in_submission_order 0 true [])
  <> snd (retrieveBatch CertificateParser (Fixtures.mixed CertificateParser)
            Fixtures.in_submission_order 0 false []).
Proof.
  apply (threaded_batch_differs CertificateParser
           (Fixtures.mixed CertificateParser) Fixtures.in_submission_order 0).
  apply returns_by_evaluation. vm_compute. reflexivity.
Defined.

(** C2: a sequential batch returns normally whenever each identifier
    resolves, whatever the outcomes; a threaded batch never does: it
    raises [AttributeError] on every input. *)
Theorem batch_completion self net schedule file_no t :
  ((forall x, In x (cert_range self file_no) ->
              exists v, parse_result self net x = Ret v) ->
   exists items,
     snd (retrieveBatch self net schedule file_no false t) = Ret (ListObj items))
  /\ snd (retrieveBatch self net schedule file_no true t)
     = Raise (AttributeError "generator" "count").
Proof.
  split.
  - intros Hall. exists (batch_items self net file_no).
    now rewrite (retrieveBatch_sequential self net schedule file_no t Hall).
  - now rewrite retrieveBatch_threaded.
Qed.

Lemma batch_completion_witness :
  (exists items,
      snd (retrieveBatch CertificateParser (Fixtures.mixed CertificateParser)
             Fixtures.in_submission_order 0 false []) = Ret (ListObj items))
  /\ snd (retrieveBatch CertificateParser
            (Fixtures.always (Page (Fixtures.full_doc CertificateParser "A123")))
            Fixtures.in_submission_order 0 true [])
     = Raise (AttributeError "generator" "count").
Proof.
  split.
  - apply (proj1 (batch_completion CertificateParser
                    (Fixtures.mixed CertificateParser)
                    Fixtures.in_submission_order 0 [])).
    apply returns_by_evaluation. vm_compute. reflexivity.
  - apply (proj2 (batch_completion CertificateParser
                    (Fixtures.always (Page (Fixtures.full_doc CertificateParser "A123")))
                    Fixtures.in_submission_order 0 [])).
Defined.

(** C3: batch [b] of size [S] is the identifiers [b*S], ..., [b*S+S-1]
    in ascending order, and these are the calls that are made.  In
    sequential mode the list returned has length [S] and holds at
    position [i] what resolving [b*S+i] returned; in threaded mode no
    list is returned, the batch raises [AttributeError]. *)
Theorem batch_range_and_positions self net schedule file_no :
  (forall x, In x (cert_range self file_no) ->
             exists v, parse_result self net x = Ret v) ->
  let size := _batch_size self in
  List.length (cert_range self file_no) = Z.to_nat size
  /\ (forall i, (i < Z.to_nat size)%nat ->
        nth_error (cert_range self file_no) i
        = Some (file_no * size + Z.of_nat i))
  /\ (exists items,
        retrieveBatch self net schedule file_no false []
        = ([Log INFO false [Lit "Starting batch number "; Fmt (PyInt file_no)]]
             ++ List.concat (map (parse_events self net) (cert_range self file_no))
             ++ [Log INFO false [Lit "Completed batch number "; Fmt (PyInt file_no)]]
             ++ failure_warnings self (list_count items (PyBool false)),
           Ret (ListObj items))
        /\ List.length items = Z.to_nat size
        /\ forall i, (i < Z.to_nat size)%nat ->
             exists v, nth_error items i = Some v
                       /\ parse_result self net (file_no * size + Z.of_nat i)
                          = Ret v)
  /\ snd (retrieveBatch self net schedule file_no true [])
     = Raise (AttributeError "generator" "count").
Proof.
  intros Hall size. split; [apply cert_range_length|].
  split; [apply cert_range_nth|]. split.
  - exists (batch_items self net file_no).
    split; [apply (retrieveBatch_sequential self net schedule file_no [] Hall)|].
    split; [apply batch_items_length|].
    intros i Hi. now apply batch_items_nth.
  - now rewrite retrieveBatch_threaded.
Qed.

Lemma batch_range_and_positions_witness :
  List.length (cert_range CertificateParser 2) = Z.to_nat 1000
  /\ nth_error (cert_range CertificateParser 2) 999 = Some 2999
  /\ snd (retrieveBatch CertificateParser (Fixtures.always (Page Fixtures.empty_doc))
            Fixtures.in_submission_order 2 true [])
     = Raise (AttributeError "generator" "count").
Proof.
  pose proof (batch_range_and_positions CertificateParser
                (Fixtures.always (Page Fixtures.empty_doc))
                Fixtures.in_submission_order 2) as H.
  assert (Hall : forall x, In x (cert_range CertificateParser 2) ->
            exists v, parse_result CertificateParser
                        (Fixtures.always (Page Fixtures.empty_doc)) x = Ret v).
  { apply returns_by_evaluation. vm_compute. reflexivity. }
  destruct (H Hall) as (Hlen & Hnth & _ & Hthreaded).
  split; [exact Hlen|]. split; [|exact Hthreaded].
  apply (Hnth 999%nat). vm_compute. reflexivity.
Defined.

(* ================================================================== *)
(** ** Batches: the failure summary *)
(* ================================================================== *)

Lemma open_with_retry_no_rate self net number_code budget :
  forall attempts,
    existsb reports_rate
      (fst (open_with_retry self net number_code budget attempts [])) = false.
Proof.
  induction budget as [|budget IH]; intros attempts; [reflexivity|].
  destruct (net (url_of self number_code) (Z.to_nat attempts)) as [doc|e] eqn:Hnet.
  - now rewrite (open_with_retry_page self net number_code budget attempts [] doc Hnet).
  - destruct (transient e) eqn:Htr.
    + rewrite (open_with_retry_retries self net number_code budget attempts [] e Hnet Htr).
      rewrite (open_with_retry_framed self net number_code budget (attempts + 1) _).
      simpl. apply IH.
    + now rewrite (open_with_retry_raises self net number_code budget attempts [] e Hnet Htr).
Qed.

Lemma extract_no_rate self doc number_code :
  existsb reports_rate (fst (extract self doc number_code [])) = false.
Proof.
  unfold extract, bind, log, log_exception, emit, ret, raise. simpl.
  destruct (truthy _); [|reflexivity]. simpl.
  destruct (build_student_dict _ _ _ _ _ _ _ _ _ _); [|reflexivity].
  destruct (py_getitem _ _); reflexivity.
Qed.

Lemma parse_no_rate self net number_code :
  existsb reports_rate (parse_events self net number_code) = false.
Proof.
  unfold parse_events, parse, bind.
  pose proof (open_with_retry_no_rate self net number_code
                (Z.to_nat (_retry_attempts self)) 0) as Hloop.
  destruct (open_with_retry _ _ _ _ _ _) as [t [[doc|]|x]]; simpl in *.
  - rewrite (extract_framed self doc number_code t). simpl.
    now rewrite existsb_app, Hloop, extract_no_rate.
  - unfold log_exception, emit. simpl. now rewrite existsb_app, Hloop.
  - exact Hloop.
Qed.

Lemma items_no_rate self net (ids : list Z) :
  existsb reports_rate (List.concat (map (parse_events self net) ids)) = false.
Proof.
  induction ids as [|x ids IH]; simpl; [reflexivity|].
  now rewrite existsb_app, parse_no_rate, IH.
Qed.

(** The rate is a binary64 value: 50 failed items of 1000 give 5.0, and
    70 give 7.000000000000001. *)
Lemma failure_rate_rounding :
  failure_rate CertificateParser 50 = 5%float
  /\ PrimFloat.eqb (failure_rate CertificateParser 70) 7%float = false
  /\ failure_rate CertificateParser 70 = 0x1.c000000000001p+2%float.
Proof. repeat split; reflexivity. Qed.





(** C7 (as stated, refuted): batch 2 with no certificate under any of
    its identifiers has no failed item, and its trace ends with the
    record of completion: no record reports a failure rate, of 0% or
    other. *)
Lemma no_rate_reported_without_failures :
  let run := retrieveBatch CertificateParser
               (Fixtures.always (Page Fixtures.empty_doc))
               Fixtures.in_submission_order 2 false [] in
  snd run = Ret (ListObj (repeat PyNone 1000))
  /\ list_count (repeat PyNone 1000) (PyBool false) = 0
  /\ existsb reports_rate (fst run) = false
  /\ last (fst run) (Get "" 0)
     = Log INFO false [Lit "Completed batch number "; Fmt (PyInt 2)].
Proof. cbv zeta. repeat split; vm_compute; reflexivity. Qed.

(** C7 (amended): once all the items of a sequential batch have
    resolved, the record of completion is logged; when at least one item
    failed it is followed by a warning with the number of failed items
    and a warning with the rate [failed / batch size * 100], 5.0 for 50
    failed items in a batch of 1000; when no item failed nothing
    follows it, and no failure rate is reported at all.  The rate is the
    binary64 value that Python computes; the bound on the batch size is
    the range in which [float_of_int] is exact. *)
Theorem failure_summary self net schedule file_no :
  0 <= _batch_size self < 2 ^ 53 ->
  (forall x, In x (cert_range self file_no) ->
             exists v, parse_result self net x = Ret v) ->
  let failed := list_count (batch_items self net file_no) (PyBool false) in
  let trace := fst (retrieveBatch self net schedule file_no false []) in
  let completed :=
    Log INFO false [Lit "Completed batch number "; Fmt (PyInt file_no)] in
  (1 <= failed ->
   exists before,
     trace = before
               ++ [ completed;
                    Log WARNING false [Fmt (PyInt failed);
                                       Lit " elements could not be obtained"];
                    Log WARNING false
                      [FmtFloat
                         (PrimFloat.mul
                            (PrimFloat.div (float_of_int failed)
                               (float_of_int (_batch_size self)))
                            (float_of_int 100));
                       Lit "% failure rate"] ]
     /\ existsb reports_rate before = false)
  /\ (failed = 0 ->
      (exists before, trace = before ++ [completed])
      /\ existsb reports_rate trace = false)
  /\ failure_rate CertificateParser 50 = 5%float.
Proof.
  intros _ Hall failed trace completed. subst trace.
  rewrite (retrieveBatch_sequential self net schedule file_no [] Hall).
  fold failed. fold completed. simpl fst.
  split; [|split; [|reflexivity]].
  - intros Hfailed.
    exists (Log INFO false [Lit "Starting batch number "; Fmt (PyInt file_no)]
              :: List.concat (map (parse_events self net) (cert_range self file_no))).
    split.
    + unfold failure_warnings, failure_rate.
      destruct (failed >=? 1) eqn:Hge; [|lia].
      reflexivity.
    + simpl. apply items_no_rate.
  - intros Hzero. unfold failure_warnings. rewrite Hzero. simpl.
    split.
    + exists (Log INFO false [Lit "Starting batch number "; Fmt (PyInt file_no)]
                :: List.concat (map (parse_events self net) (cert_range self file_no))).
      reflexivity.
    + rewrite existsb_app, items_no_rate. reflexivity.
Qed.

Lemma failure_summary_witness :
  exists before,
    fst (retrieveBatch CertificateParser
           (Fixtures.unreachable_below CertificateParser 50)
           Fixtures.in_submission_order 0 false [])
    = before
        ++ [ Log INFO false [Lit "Completed batch number "; Fmt (PyInt 0)];
             Log WARNING false [Fmt (PyInt 50);
                                Lit " elements could not be obtained"];
             Log WARNING false [FmtFloat 5%float; Lit "% failure rate"] ]
    /\ existsb reports_rate before = false.
Proof.
  pose proof (failure_summary CertificateParser
                (Fixtures.unreachable_below CertificateParser 50)
                Fixtures.in_submission_order 0) as H.
  assert (Hsize : 0 <= _batch_size CertificateParser < 2 ^ 53)
    by (vm_compute; split; [discriminate | reflexivity]).
  assert (Hall : forall x, In x (cert_range CertificateParser 0) ->
            exists v, parse_result CertificateParser
                        (Fixtures.unreachable_below CertificateParser 50) x = Ret v).
  { apply returns_by_evaluation. vm_compute. reflexivity. }
  assert (Hfailed :
            list_count (batch_items CertificateParser
                          (Fixtures.unreachable_below CertificateParser 50) 0)
              (PyBool false) = 50)
    by (vm_compute; reflexivity).
  destruct (H Hsize Hall) as (Hsome & _ & _).
  cbv zeta in Hsome. rewrite Hfailed in Hsome.
  apply Hsome. vm_compute. discriminate.
Defined.



(* ================================================================== *)
(** ** Further properties of [parse] *)
(* ================================================================== *)

Lemma requested_app (t1 t2 : Trace) :
  requested (t1 ++ t2) = requested t1 ++ requested t2.
Proof. unfold requested. apply flat_map_app. Qed.

Lemma requests_made_requested (t : Trace) :
  requests_made t = List.length (requested t).
Proof.
  unfold requests_made, requested.
  induction t as [|[lvl exc msg|url timeout] t IH]; simpl; [reflexivity|exact IH|].
  now rewrite IH.
Qed.

Lemma attempt_events_requested self net number_code j :
  requested (attempt_events self net number_code j)
  = [(url_of self number_code, 10)].
Proof.
  unfold attempt_events. destruct (net _ _) as [doc|e]; [reflexivity|].
  destruct (transient e); reflexivity.
Qed.

Lemma attempts_trace_requested self net number_code k :
  requested (attempts_trace self net number_code k)
  = repeat (url_of self number_code, 10) k.
Proof.
  unfold attempts_trace. generalize 0%nat.
  induction k as [|k IH]; intros from; simpl; [reflexivity|].
  rewrite requested_app, attempt_events_requested, IH. reflexivity.
Qed.

Lemma attempts_trace_errors self net number_code k :
  errors (attempts_trace self net number_code k) = 0%nat.
Proof.
  unfold attempts_trace, errors.
  assert (H : forall from,
             List.length
               (filter is_error
                  (List.concat (map (attempt_events self net number_code)
                                  (seq from k)))) = 0%nat).
  { induction k as [|k IH]; intros from; simpl; [reflexivity|].
    rewrite filter_app, length_app, IH. unfold attempt_events.
    destruct (net _ _) as [doc|e]; [reflexivity|].
    destruct (transient e); reflexivity. }
  apply H.
Qed.

Lemma attempts_trace_succ self net number_code k :
  attempts_trace self net number_code (S k)
  = attempts_trace self net number_code k ++ attempt_events self net number_code k.
Proof.
  unfold attempts_trace. rewrite seq_S, map_app, concat_app. simpl.
  now rewrite app_nil_r.
Qed.

(** The loop after [k] failed attempts that are retried. *)
Lemma open_with_retry_after_failures self net number_code :
  forall k budget,
    (forall j, (j < k)%nat -> failed_transiently net (url_of self number_code) j) ->
    open_with_retry self net number_code (k + budget) 0 []
    = open_with_retry self net number_code budget (Z.of_nat k)
        (attempts_trace self net number_code k).
Proof.
  induction k as [|k IH]; intros budget Hfail; [reflexivity|].
  replace (S k + budget)%nat with (k + S budget)%nat by lia.
  rewrite IH by (intros j Hj; apply Hfail; lia).
  destruct (Hfail k ltac:(lia)) as (e & He & Htr).
  rewrite (open_with_retry_retries self net number_code budget (Z.of_nat k) _ e).
  - rewrite attempts_trace_succ. unfold attempt_events. rewrite He, Htr.
    f_equal. lia.
  - now rewrite Nat2Z.id.
  - exact Htr.
Qed.

Lemma open_with_retry_requested self net number_code budget :
  forall attempts,
    exists m, (m <= budget)%nat
      /\ requested (fst (open_with_retry self net number_code budget attempts []))
         = repeat (url_of self number_code, 10) m.
Proof.
  induction budget as [|budget IH]; intros attempts.
  - exists 0%nat. split; [lia | reflexivity].
  - destruct (net (url_of self number_code) (Z.to_nat attempts)) as [doc|e] eqn:Hnet.
    + rewrite (open_with_retry_page self net number_code budget attempts [] doc Hnet).
      exists 1%nat. split; [lia | reflexivity].
    + destruct (transient e) eqn:Htr.
      * rewrite (open_with_retry_retries self net number_code budget attempts [] e Hnet Htr).
        rewrite (open_with_retry_framed self net number_code budget (attempts + 1) _).
        destruct (IH (attempts + 1)) as (m & Hm & Hreq).
        exists (S m). split; [lia|].
        change (fst (([] ++ [Get (url_of self number_code) 10;
                             retry_warning e number_code])
                     ++ fst (open_with_retry self net number_code budget
                               (attempts + 1) []),
                     snd (open_with_retry self net number_code budget
                            (attempts + 1) [])))
          with ([Get (url_of self number_code) 10; retry_warning e number_code]
                  ++ fst (open_with_retry self net number_code budget
                            (attempts + 1) [])).
        rewrite requested_app, Hreq. reflexivity.
      * rewrite (open_with_retry_raises self net number_code budget attempts [] e Hnet Htr).
        exists 1%nat. split; [lia | reflexivity].
Qed.

Lemma extract_requested self doc number_code :
  requested (fst (extract self doc number_code [])) = [].
Proof.
  unfold extract, bind, log, log_exception, emit, ret, raise. simpl.
  destruct (truthy _); [|reflexivity]. simpl.
  destruct (build_student_dict _ _ _ _ _ _ _ _ _ _); [|reflexivity].
  destruct (py_getitem _ _); reflexivity.
Qed.

(** Every request that [parse] makes for an identifier is a GET of the
    base URL followed by the identifier, with a timeout of 10; there are
    at most [_retry_attempts] of them, and no other URL is ever
    requested. *)
Theorem parse_requests_one_url self net number_code :
  exists m, (m <= Z.to_nat (_retry_attempts self))%nat
    /\ requested (parse_events self net number_code)
       = repeat ((_base_url self ++ str_int number_code)%string, 10) m.
Proof.
  fold (url_of self number_code). unfold parse_events, parse, bind.
  destruct (open_with_retry_requested self net number_code
              (Z.to_nat (_retry_attempts self)) 0) as (m & Hm & Hreq).
  exists m. split; [exact Hm|].
  destruct (open_with_retry _ _ _ _ _ _) as [t [[doc|]|x]]; simpl in *.
  - rewrite (extract_framed self doc number_code t). simpl.
    rewrite requested_app, extract_requested, app_nil_r. exact Hreq.
  - unfold log_exception, emit. simpl. rewrite requested_app. simpl.
    rewrite app_nil_r. exact Hreq.
  - exact Hreq.
Qed.

(** [parse] stops at the first attempt that succeeds: after [k] failed
    attempts that are retried and a page at attempt [k], it has made
    exactly [k + 1] requests and returns what extraction gives on that
    page, whatever the portal would answer to later attempts. *)
Theorem parse_stops_at_first_success self net number_code k doc :
  (k < Z.to_nat (_retry_attempts self))%nat ->
  (forall j, (j < k)%nat -> failed_transiently net (url_of self number_code) j) ->
  net (url_of self number_code) k = Page doc ->
  parse self net number_code []
  = (attempts_trace self net number_code k
       ++ Get (url_of self number_code) 10 :: fst (extract self doc number_code []),
     Ret (extract_value self doc number_code))
  /\ requests_made (parse_events self net number_code) = S k.
Proof.
  intros Hk Hfail Hpage.
  assert (Hrun : parse self net number_code []
                 = (attempts_trace self net number_code k
                      ++ Get (url_of self number_code) 10
                           :: fst (extract self doc number_code []),
                    Ret (extract_value self doc number_code))).
  { unfold parse, bind.
    replace (Z.to_nat (_retry_attempts self))
      with (k + S (Z.to_nat (_retry_attempts self) - S k))%nat by lia.
    rewrite (open_with_retry_after_failures self net number_code k _ Hfail).
    rewrite (open_with_retry_page self net number_code _ (Z.of_nat k) _ doc)
      by (now rewrite Nat2Z.id).
    rewrite (extract_framed self doc number_code _).
    rewrite extract_result. rewrite <- app_assoc. reflexivity. }
  split; [exact Hrun|].
  unfold parse_events. rewrite Hrun. simpl fst.
  rewrite requests_made_requested, requested_app, attempts_trace_requested.
  simpl. rewrite extract_requested, length_app, repeat_length. simpl. lia.
Qed.

Lemma parse_stops_at_first_success_witness :
  requests_made
    (parse_events CertificateParser
       (Fixtures.fails_then 1 ProxyError
          (Page (Fixtures.full_doc CertificateParser "A123"))) 37) = 2%nat.
Proof.
  refine (proj2 (parse_stops_at_first_success CertificateParser
                   (Fixtures.fails_then 1 ProxyError
                      (Page (Fixtures.full_doc CertificateParser "A123"))) 37 1
                   (Fixtures.full_doc CertificateParser "A123") _ _ _)).
  - vm_compute. lia.
  - intros j Hj. exists ProxyError. replace j with 0%nat by lia.
    split; reflexivity.
  - reflexivity.
Defined.

(** When every allowed attempt fails with an error that is retried,
    [parse] has made exactly [_retry_attempts] requests (none when the
    attribute is zero or negative), logs one error record after the
    warnings and returns [False]. *)
Theorem parse_exhausts_attempts self net number_code :
  (forall j, (j < Z.to_nat (_retry_attempts self))%nat ->
             failed_transiently net (url_of self number_code) j) ->
  parse self net number_code []
  = (attempts_trace self net number_code (Z.to_nat (_retry_attempts self))
       ++ [Log ERROR true [Lit "Connection error on "; Fmt (PyInt number_code)]],
     Ret (PyBool false))
  /\ requests_made (parse_events self net number_code)
     = Z.to_nat (_retry_attempts self)
  /\ errors (parse_events self net number_code) = 1%nat.
Proof.
  intros Hfail.
  assert (Hrun : parse self net number_code []
                 = (attempts_trace self net number_code
                      (Z.to_nat (_retry_attempts self))
                      ++ [Log ERROR true [Lit "Connection error on ";
                                          Fmt (PyInt number_code)]],
                    Ret (PyBool false))).
  { unfold parse, bind.
    replace (Z.to_nat (_retry_attempts self))
      with (Z.to_nat (_retry_attempts self) + 0)%nat at 1 by lia.
    rewrite (open_with_retry_after_failures self net number_code _ _ Hfail).
    rewrite open_with_retry_zero. reflexivity. }
  split; [exact Hrun|].
  unfold parse_events. rewrite Hrun. simpl fst. split.
  - rewrite requests_made_requested, requested_app, attempts_trace_requested.
    simpl. rewrite app_nil_r. apply repeat_length.
  - unfold errors. rewrite filter_app, length_app.
    fold (errors (attempts_trace self net number_code
                    (Z.to_nat (_retry_attempts self)))).
    rewrite attempts_trace_errors. reflexivity.
Qed.

Lemma parse_exhausts_attempts_witness :
  requests_made
    (parse_events CertificateParser (Fixtures.always (Fails SSLError)) 37) = 4%nat
  /\ parse_result Scenarios.without_retries
       (Fixtures.always (Page (Fixtures.full_doc CertificateParser "A123"))) 37
     = Ret (PyBool false).
Proof.
  split.
  - refine (proj1 (proj2 (parse_exhausts_attempts CertificateParser
                             (Fixtures.always (Fails SSLError)) 37 _))).
    intros j Hj. exists SSLError. split; reflexivity.
  - pose proof (parse_exhausts_attempts Scenarios.without_retries
                  (Fixtures.always (Page (Fixtures.full_doc CertificateParser "A123")))
                  37) as H.
    unfold parse_result. rewrite (proj1 (H ltac:(intros j Hj; simpl in Hj; lia))).
    reflexivity.
Defined.

(** An error of the fetch that is neither a connection error nor a
    timeout ends [parse] at once: it is raised after the request that met
    it, no further attempt is made, and nothing is logged about it. *)
Theorem parse_raises_unretried_error self net number_code k e :
  (k < Z.to_nat (_retry_attempts self))%nat ->
  (forall j, (j < k)%nat -> failed_transiently net (url_of self number_code) j) ->
  net (url_of self number_code) k = Fails e ->
  transient e = false ->
  parse self net number_code []
  = (attempts_trace self net number_code k ++ [Get (url_of self number_code) 10],
     Raise (RequestsError e))
  /\ requests_made (parse_events self net number_code) = S k
  /\ errors (parse_events self net number_code) = 0%nat.
Proof.
  intros Hk Hfail Hnet Htr.
  assert (Hrun : parse self net number_code []
                 = (attempts_trace self net number_code k
                      ++ [Get (url_of self number_code) 10],
                    Raise (RequestsError e))).
  { unfold parse, bind.
    replace (Z.to_nat (_retry_attempts self))
      with (k + S (Z.to_nat (_retry_attempts self) - S k))%nat by lia.
    rewrite (open_with_retry_after_failures self net number_code k _ Hfail).
    rewrite (open_with_retry_raises self net number_code _ (Z.of_nat k) _ e)
      by (rewrite ?Nat2Z.id; assumption).
    reflexivity. }
  split; [exact Hrun|].
  unfold parse_events. rewrite Hrun. simpl fst. split.
  - rewrite requests_made_requested, requested_app, attempts_trace_requested.
    simpl. rewrite length_app, repeat_length. simpl. lia.
  - unfold errors. rewrite filter_app, length_app.
    fold (errors (attempts_trace self net number_code k)).
    rewrite attempts_trace_errors. reflexivity.
Qed.

Lemma parse_raises_unretried_error_witness :
  parse_result CertificateParser
    (fun _ n => if Nat.ltb n 2 then Fails ReadTimeout
                else Fails ContentDecodingError) 37
  = Raise (RequestsError ContentDecodingError).
Proof.
  unfold parse_result.
  rewrite (proj1 (parse_raises_unretried_error CertificateParser
                    (fun _ n => if Nat.ltb n 2 then Fails ReadTimeout
                                else Fails ContentDecodingError)
                    37 2 ContentDecodingError
                    ltac:(vm_compute; lia)
                    ltac:(intros j Hj; exists ReadTimeout;
                          destruct j as [|[|j]]; [split; reflexivity ..|lia])
                    eq_refl eq_refl)).
  reflexivity.
Defined.

Lemma str_int_decodes (z : Z) :
  option_map Z.of_int (NilZero.int_of_string (str_int z)) = Some z.
Proof.
  unfold str_int. rewrite NilZero.isi.
  - simpl. now rewrite DecimalZ.of_to.
  - destruct z as [|p|p]; simpl; intros H; try discriminate.
    injection H as H. now apply DecimalPos.Unsigned.to_uint_nonnil in H.
  - destruct z as [|p|p]; simpl; intros H; try discriminate.
    injection H as H. now apply DecimalPos.Unsigned.to_uint_nonnil in H.
Qed.

Lemma substring_whole (s : string) : substring 0 (String.length s) s = s.
Proof. induction s as [|c s IH]; simpl; [reflexivity | now rewrite IH]. Qed.

(** The identifier can be read back from the URL that [parse] requests:
    what follows the base URL is the decimal numeral of the identifier,
    which decodes to it, so that two identifiers never share a URL. *)
Theorem url_identifies_identifier self number_code :
  url_of self number_code = (_base_url self ++ str_int number_code)%string
  /\ option_map Z.of_int
       (NilZero.int_of_string
          (substring (String.length (_base_url self))
             (String.length (str_int number_code))
             (url_of self number_code))) = Some number_code
  /\ (forall other, url_of self other = url_of self number_code ->
                    other = number_code).
Proof.
  split; [reflexivity|]. split.
  - unfold url_of.
    rewrite <- (Nat.add_0_r (String.length (_base_url self))).
    rewrite substring_skip.
    rewrite substring_whole. apply str_int_decodes.
  - intros other H. unfold url_of in H. apply string_app_inv_head in H.
    apply (f_equal (fun s => option_map Z.of_int (NilZero.int_of_string s))) in H.
    rewrite !str_int_decodes in H. congruence.
Qed.

Lemma truthy_first {A : Type} (l : list A) :
  truthy l = match first l with Some _ => true | None => false end.
Proof. destruct l; reflexivity. Qed.

Lemma build_student_dict_first number_code
    l1 l2 l3 l4 l5 l6 l7 l8 l9 m1 m2 m3 m4 m5 m6 m7 m8 m9 :
  first l1 = first m1 -> first l2 = first m2 -> first l3 = first m3 ->
  first l4 = first m4 -> first l5 = first m5 -> first l6 = first m6 ->
  first l7 = first m7 -> first l8 = first m8 -> first l9 = first m9 ->
  build_student_dict number_code l1 l2 l3 l4 l5 l6 l7 l8 l9
  = build_student_dict number_code m1 m2 m3 m4 m5 m6 m7 m8 m9.
Proof.
  intros H1 H2 H3 H4 H5 H6 H7 H8 H9. unfold build_student_dict.
  now rewrite H1, H2, H3, H4, H5, H6, H7, H8, H9.
Qed.

(** Extraction reads the first node of each of its nine selectors and
    nothing else of the page: two pages that agree on these first nodes
    give the same value and the same log records, whatever further
    matches or other nodes they hold. *)
Theorem extract_reads_first_nodes self doc1 doc2 number_code t :
  (forall f, In f ("tmpNombrePlantel"%string :: other_fields) ->
             first (doc1 (_getField self f)) = first (doc2 (_getField self f))) ->
  extract self doc1 number_code t = extract self doc2 number_code t.
Proof.
  intros Hagree.
  assert (H : forall f, In f ("tmpNombrePlantel"%string :: other_fields) ->
                first (doc1 (_getField self f)) = first (doc2 (_getField self f)))
    by exact Hagree.
  unfold extract. rewrite !truthy_first.
  rewrite (H "tmpNombrePlantel"%string) by (simpl; tauto).
  rewrite (build_student_dict_first number_code
             (doc1 (_getField self "tmpNombreCompleto"))
             (doc1 (_getField self "tmpNombrePlantel"))
             (doc1 (_getField self "tmpClaveCct"))
             (doc1 (_getField self "tmpRvoe"))
             (doc1 (_getField self "matricula"))
             (doc1 (_getField self "promedio"))
             (doc1 (_getField self "tmpPeriodo"))
             (doc1 (_getField self "tmpTipoCertificado"))
             (doc1 (_getField self "tmpFolioDigital"))
             (doc2 (_getField self "tmpNombreCompleto"))
             (doc2 (_getField self "tmpNombrePlantel"))
             (doc2 (_getField self "tmpClaveCct"))
             (doc2 (_getField self "tmpRvoe"))
             (doc2 (_getField self "matricula"))
             (doc2 (_getField self "promedio"))
             (doc2 (_getField self "tmpPeriodo"))
             (doc2 (_getField self "tmpTipoCertificado"))
             (doc2 (_getField self "tmpFolioDigital")));
    try (apply H; simpl; tauto).
  reflexivity.
Qed.

Lemma extract_reads_first_nodes_witness :
  extract CertificateParser
    (Scenarios.doubled (Fixtures.full_doc CertificateParser "A123")) 37 []
  = extract CertificateParser (Fixtures.full_doc CertificateParser "A123") 37 [].
Proof.
  apply (extract_reads_first_nodes CertificateParser
           (Scenarios.doubled (Fixtures.full_doc CertificateParser "A123"))
           (Fixtures.full_doc CertificateParser "A123") 37 []).
  intros f Hf. unfold Scenarios.doubled.
  now destruct (Fixtures.full_doc CertificateParser "A123" (_getField CertificateParser f)).
Defined.

Lemma errors_app (t1 t2 : Trace) :
  errors (t1 ++ t2) = (errors t1 + errors t2)%nat.
Proof. unfold errors. now rewrite filter_app, length_app. Qed.

Lemma open_with_retry_errors self net number_code budget :
  forall attempts,
    errors (fst (open_with_retry self net number_code budget attempts [])) = 0%nat.
Proof.
  induction budget as [|budget IH]; intros attempts; [reflexivity|].
  destruct (net (url_of self number_code) (Z.to_nat attempts)) as [doc|e] eqn:Hnet.
  - now rewrite (open_with_retry_page self net number_code budget attempts [] doc Hnet).
  - destruct (transient e) eqn:Htr.
    + rewrite (open_with_retry_retries self net number_code budget attempts [] e Hnet Htr).
      rewrite (open_with_retry_framed self net number_code budget (attempts + 1) _).
      unfold errors in *. simpl. apply IH.
    + now rewrite (open_with_retry_raises self net number_code budget attempts [] e Hnet Htr).
Qed.

(** The events of extraction end with the record of its outcome. *)
Lemma extract_closing_record self doc number_code :
  exists before r,
    fst (extract self doc number_code []) = before ++ [r]
    /\ errors before = 0%nat
    /\ match extract_value self doc number_code with
       | PyDict record =>
           exists folio, py_getitem record "certificado" = Some folio
                         /\ r = Log INFO false [Lit "Parsed "; Fmt folio]
       | PyNone =>
           r = Log WARNING false
                 [Lit "No certificate under code "; Fmt (PyInt number_code)]
       | _ =>
           r = Log ERROR true [Lit "Fields missing on "; Fmt (PyInt number_code)]
       end.
Proof.
  unfold extract, extract_value, bind, log, log_exception, emit, ret, raise.
  simpl.
  destruct (truthy (doc (_getField self "tmpNombrePlantel"))).
  - simpl.
    destruct (build_student_dict _ _ _ _ _ _ _ _ _ _) as [d|] eqn:Hd.
    + apply build_student_dict_some in Hd.
      destruct Hd as (n0 & p0 & c0 & r0 & m0 & a0 & q0 & t0 & f0 & _ & _ & _ & _
                      & _ & _ & _ & _ & _ & ->).
      simpl. eexists [_; _], _. split; [reflexivity|]. split; [reflexivity|].
      eexists. split; reflexivity.
    + simpl. eexists [_; _], _. split; [reflexivity|]. split; reflexivity.
  - simpl. eexists [_], _. split; [reflexivity|]. split; reflexivity.
Qed.

(** The last record of a call of [parse] that returns tells its
    outcome and, for a failure, its cause: the folio for a certificate,
    a warning when there is none, and an error record that reads
    "Connection error" when every attempt failed and "Fields missing"
    when a page was fetched that lacks a node.  No other record of the
    call is logged at [ERROR]. *)
Theorem last_record_tells_outcome self net number_code v :
  parse_result self net number_code = Ret v ->
  exists before r,
    parse_events self net number_code = before ++ [r]
    /\ errors before = 0%nat
    /\ match v with
       | PyDict record =>
           exists folio, py_getitem record "certificado" = Some folio
                         /\ r = Log INFO false [Lit "Parsed "; Fmt folio]
       | PyNone =>
           r = Log WARNING false
                 [Lit "No certificate under code "; Fmt (PyInt number_code)]
       | _ =>
           (r = Log ERROR true
                  [Lit "Connection error on "; Fmt (PyInt number_code)]
            /\ forall j, (j < Z.to_nat (_retry_attempts self))%nat ->
                 failed_transiently net (url_of self number_code) j)
           \/ (r = Log ERROR true
                     [Lit "Fields missing on "; Fmt (PyInt number_code)]
               /\ exists k doc,
                    net (url_of self number_code) k = Page doc
                    /\ page_shape_failure self doc)
       end.
Proof.
  unfold parse_result, parse_events, parse, bind.
  pose proof (open_with_retry_cases self net number_code
                (Z.to_nat (_retry_attempts self)) 0 [] ltac:(lia)) as Hloop.
  pose proof (open_with_retry_errors self net number_code
                (Z.to_nat (_retry_attempts self)) 0) as Herr.
  destruct (open_with_retry _ _ _ _ _ _) as [t [[doc|]|x]]; simpl in *.
  - rewrite (extract_framed self doc number_code t). simpl.
    rewrite extract_result. intros H. injection H as <-.
    destruct (extract_closing_record self doc number_code)
      as (before & r & Hev & Hbefore & Hr).
    exists (t ++ before), r. rewrite Hev, app_assoc.
    split; [reflexivity|]. split; [rewrite errors_app; lia|].
    destruct Hloop as (k & _ & Hpage & _).
    destruct (extract_value self doc number_code) as [|b|z|s|d] eqn:Hv;
      try exact Hr.
    + destruct b.
      * destruct (extract_value_outcome self doc number_code) as [o Ho].
        rewrite Hv in Ho. discriminate.
      * right. split; [exact Hr|]. exists k, doc. split; [exact Hpage|].
        now apply (extract_value_failed_iff self doc number_code).
    + destruct (extract_value_outcome self doc number_code) as [o Ho].
      rewrite Hv in Ho. discriminate.
    + destruct (extract_value_outcome self doc number_code) as [o Ho].
      rewrite Hv in Ho. discriminate.
  - unfold log_exception, emit, ret. simpl. intros H. injection H as <-.
    exists t, (Log ERROR true [Lit "Connection error on "; Fmt (PyInt number_code)]).
    split; [reflexivity|]. split; [exact Herr|]. left. split; [reflexivity|].
    exact Hloop.
  - discriminate.
Qed.

Lemma last_record_tells_outcome_witness :
  exists before r,
    parse_events CertificateParser
      (Fixtures.always (Page (Fixtures.full_doc CertificateParser "A123"))) 37
    = before ++ [r]
    /\ errors before = 0%nat
    /\ exists folio,
         py_getitem
           [ ("number"%string, PyInt 37); ("nombre"%string, PyStr "x");
             ("plantel"%string, PyStr "x"); ("clave_trabajo"%string, PyStr "x");
             ("rvoe"%string, PyStr "x"); ("matricula"%string, PyStr "x");
             ("promedio"%string, PyStr "x"); ("periodo"%string, PyStr "x");
             ("tipo_certificado"%string, PyStr "x");
             ("certificado"%string, PyStr "A123") ] "certificado" = Some folio
         /\ r = Log INFO false [Lit "Parsed "; Fmt folio].
Proof.
  exact (last_record_tells_outcome CertificateParser
           (Fixtures.always (Page (Fixtures.full_doc CertificateParser "A123"))) 37
           _ eq_refl).
Defined.

(** A call of [parse] that returns logs exactly one error record when
    it returns [False] and none otherwise. *)
Lemma parse_errors self net number_code v :
  parse_result self net number_code = Ret v ->
  errors (parse_events self net number_code)
  = if is_FetchFailed v then 1%nat else 0%nat.
Proof.
  unfold parse_result, parse_events, parse, bind.
  pose proof (open_with_retry_errors self net number_code
                (Z.to_nat (_retry_attempts self)) 0) as Herr.
  destruct (open_with_retry _ _ _ _ _ _) as [t [[doc|]|x]]; simpl in *.
  - rewrite (extract_framed self doc number_code t). simpl.
    rewrite extract_result. intros H. injection H as <-.
    destruct (extract_closing_record self doc number_code)
      as (before & r & Hev & Hbefore & Hr).
    rewrite Hev, !errors_app, Herr, Hbefore.
    destruct (extract_value_outcome self doc number_code) as [o Ho].
    unfold is_FetchFailed. rewrite Ho.
    destruct (extract_value self doc number_code) as [|[|]|z|s|d];
      simpl in Ho; try discriminate; injection Ho as <-.
    + subst r. reflexivity.
    + subst r. reflexivity.
    + destruct Hr as (folio & _ & ->). reflexivity.
  - unfold log_exception, emit, ret. simpl. intros H. injection H as <-.
    rewrite errors_app, Herr. reflexivity.
  - discriminate.
Qed.

(* ================================================================== *)
(** ** Further properties of the batch *)
(* ================================================================== *)

Lemma In_py_range (start stop x : Z) :
  In x (py_range start stop) <-> start <= x < stop.
Proof.
  unfold py_range. rewrite in_map_iff. split.
  - intros (i & <- & Hi). apply in_seq in Hi. lia.
  - intros Hx. exists (Z.to_nat (x - start)). split; [lia|].
    apply in_seq. lia.
Qed.

Lemma In_cert_range self file_no x :
  In x (cert_range self file_no)
  <-> _batch_size self * file_no <= x < _batch_size self * file_no + _batch_size self.
Proof. unfold cert_range. apply In_py_range. Qed.

Lemma py_range_NoDup (start stop : Z) : NoDup (py_range start stop).
Proof.
  unfold py_range. generalize (Z.to_nat (stop - start)) as len.
  intros len. generalize 0%nat as from.
  induction len as [|len IH]; intros from; simpl; constructor.
  - rewrite in_map_iff. intros (i & Hi & Hin). apply in_seq in Hin. lia.
  - apply IH.
Qed.

Lemma map_seq_offset {A : Type} (f : nat -> A) (k len : nat) :
  forall from,
    map f (seq (k + from) len) = map (fun i => f (k + i)%nat) (seq from len).
Proof.
  induction len as [|len IH]; intros from; simpl; [reflexivity|].
  f_equal. rewrite <- IH. f_equal. f_equal. lia.
Qed.

Lemma py_range_app (a b c : Z) :
  a <= b <= c -> py_range a b ++ py_range b c = py_range a c.
Proof.
  intros H. unfold py_range.
  replace (Z.to_nat (c - a)) with (Z.to_nat (b - a) + Z.to_nat (c - b))%nat by lia.
  rewrite seq_app, map_app. f_equal. simpl.
  rewrite <- (Nat.add_0_r (Z.to_nat (b - a))) at 1.
  rewrite map_seq_offset. apply map_ext. intros i. lia.
Qed.

(** With a positive batch size the batches partition the identifiers:
    an identifier belongs to batch [file_no] exactly when [file_no] is
    its quotient by [batchSize()], no identifier occurs twice in a batch,
    and a batch followed by the next one is one contiguous range. *)
Theorem batches_partition_identifiers self file_no :
  0 < batchSize self ->
  (forall x, In x (cert_range self file_no) <-> x / batchSize self = file_no)
  /\ NoDup (cert_range self file_no)
  /\ cert_range self file_no ++ cert_range self (file_no + 1)
     = py_range (batchSize self * file_no)
                (batchSize self * file_no + 2 * batchSize self).
Proof.
  unfold batchSize. intros Hpos. split; [|split].
  - intros x. rewrite In_cert_range. split.
    + intros Hx. symmetry. apply (Z.div_unique x (_batch_size self) file_no
                                    (x - _batch_size self * file_no)); lia.
    + intros <-. pose proof (Z.div_mod x (_batch_size self) ltac:(lia)) as Hdm.
      pose proof (Z.mod_pos_bound x (_batch_size self) Hpos) as Hmod. lia.
  - unfold cert_range. apply py_range_NoDup.
  - unfold cert_range.
    replace (_batch_size self * (file_no + 1))
      with (_batch_size self * file_no + _batch_size self) by lia.
    replace (_batch_size self * file_no + _batch_size self + _batch_size self)
      with (_batch_size self * file_no + 2 * _batch_size self) by lia.
    apply py_range_app. lia.
Qed.

Lemma batches_partition_identifiers_witness :
  In 2999 (cert_range CertificateParser 2)
  /\ ~ In 3000 (cert_range CertificateParser 2).
Proof.
  pose proof (batches_partition_identifiers CertificateParser 2 eq_refl) as H.
  destruct H as (Hin & _ & _). split.
  - apply Hin. reflexivity.
  - intros H3000. apply Hin in H3000. discriminate.
Defined.

Lemma items_errors self net (ids : list Z) :
  (forall x, In x ids -> exists v, parse_result self net x = Ret v) ->
  errors (List.concat (map (parse_events self net) ids))
  = List.length
      (filter is_FetchFailed
         (map (fun x => value_of (parse_result self net x)) ids)).
Proof.
  induction ids as [|x ids IH]; intros Hall; simpl; [reflexivity|].
  destruct (Hall x (or_introl eq_refl)) as [v Hv].
  rewrite errors_app, (parse_errors self net x v Hv), Hv. simpl.
  rewrite IH by (intros y Hy; apply Hall; now right).
  destruct (is_FetchFailed v); reflexivity.
Qed.

Lemma failure_warnings_errors self failed :
  errors (failure_warnings self failed) = 0%nat.
Proof. unfold failure_warnings. destruct (failed >=? 1); reflexivity. Qed.

Lemma count_False_outcomes (items : list PyVal) :
  Forall (fun v => exists o, outcome_of v = Some o) items ->
  list_count items (PyBool false)
  = Z.of_nat (List.length (filter is_FetchFailed items)).
Proof.
  intros Hout. rewrite Forall_forall in Hout. unfold list_count.
  do 2 f_equal. apply filter_ext_in. intros v Hv.
  apply eq_False_is_FetchFailed. now apply Hout.
Qed.

(** The log and the summary agree: in a sequential batch in which each
    identifier resolves, the number of records logged at [ERROR] is the
    number of failed items that the closing warning reports. *)
Theorem error_records_match_failed_count self net schedule file_no :
  (forall x, In x (cert_range self file_no) ->
             exists v, parse_result self net x = Ret v) ->
  Z.of_nat (errors (fst (retrieveBatch self net schedule file_no false [])))
  = list_count (batch_items self net file_no) (PyBool false).
Proof.
  intros Hall.
  rewrite (retrieveBatch_sequential self net schedule file_no [] Hall).
  cbn [fst]. rewrite !errors_app, failure_warnings_errors.
  rewrite (items_errors self net _ Hall).
  rewrite (count_False_outcomes _ (batch_items_outcomes self net file_no Hall)).
  unfold batch_items, errors. simpl. now rewrite Nat.add_0_r.
Qed.

Lemma error_records_match_failed_count_witness :
  Z.of_nat
    (errors (fst (retrieveBatch CertificateParser
                    (Fixtures.unreachable_below CertificateParser 50)
                    Fixtures.in_submission_order 0 false [])))
  = list_count (batch_items CertificateParser
                  (Fixtures.unreachable_below CertificateParser 50) 0)
      (PyBool false).
Proof.
  apply (error_records_match_failed_count CertificateParser
           (Fixtures.unreachable_below CertificateParser 50)
           Fixtures.in_submission_order 0).
  apply returns_by_evaluation. vm_compute. reflexivity.
Defined.




Lemma list_of_map_stops self net (pre post : list Z) x e t :
  (forall y, In y pre -> exists v, parse_result self net y = Ret v) ->
  parse_result self net x = Raise e ->
  list_of_map (parse self net) (pre ++ x :: post) t
  = (t ++ List.concat (map (parse_events self net) pre) ++ parse_events self net x,
     Raise e).
Proof.
  revert t. induction pre as [|y pre IH]; intros t Hpre Hx; simpl.
  - unfold bind. rewrite parse_run, Hx. reflexivity.
  - unfold bind. rewrite parse_run.
    destruct (Hpre y (or_introl eq_refl)) as [v Hv]. rewrite Hv.
    rewrite IH by (try (intros z Hz; apply Hpre; now right); exact Hx).
    now rewrite <- !app_assoc.
Qed.

(** A sequential batch does not survive an exception of [parse]: it
    raises the error of the first identifier whose fetch raises, after
    the events of the identifiers before it and of that one only.  The
    identifiers after it are never requested, and neither the record of
    completion nor a summary is logged. *)
Theorem sequential_batch_stops_at_first_error
    self net schedule file_no pre x post e :
  cert_range self file_no = pre ++ x :: post ->
  (forall y, In y pre -> exists v, parse_result self net y = Ret v) ->
  parse_result self net x = Raise e ->
  retrieveBatch self net schedule file_no false []
  = (Log INFO false [Lit "Starting batch number "; Fmt (PyInt file_no)]
       :: List.concat (map (parse_events self net) pre)
       ++ parse_events self net x,
     Raise e)
  /\ requested (fst (retrieveBatch self net schedule file_no false []))
     = requested (List.concat (map (parse_events self net) pre))
         ++ requested (parse_events self net x).
Proof.
  intros Hrange Hpre Hx.
  assert (Hrun : retrieveBatch self net schedule file_no false []
                 = (Log INFO false [Lit "Starting batch number ";
                                    Fmt (PyInt file_no)]
                      :: List.concat (map (parse_events self net) pre)
                      ++ parse_events self net x,
                    Raise e)).
  { unfold retrieveBatch. fold (cert_range self file_no). rewrite Hrange.
    unfold bind at 1. unfold log at 1, emit. simpl.
    unfold bind at 1. unfold ret at 1.
    unfold bind at 1. unfold py_list. unfold bind at 1.
    rewrite (list_of_map_stops self net pre post x e _ Hpre Hx). reflexivity. }
  split; [exact Hrun|]. rewrite Hrun. simpl fst.
  change (Log INFO false [Lit "Starting batch number "; Fmt (PyInt file_no)]
            :: List.concat (map (parse_events self net) pre)
            ++ parse_events self net x)
    with ([Log INFO false [Lit "Starting batch number "; Fmt (PyInt file_no)]]
            ++ List.concat (map (parse_events self net) pre)
            ++ parse_events self net x).
  rewrite !requested_app. reflexivity.
Qed.

Lemma sequential_batch_stops_at_first_error_witness :
  requested
    (fst (retrieveBatch CertificateParser
            (Scenarios.redirect_loop_at_1 CertificateParser)
            Fixtures.in_submission_order 0 false []))
  = [ (url_of CertificateParser 0, 10); (url_of CertificateParser 1, 10) ].
Proof.
  rewrite (proj2 (sequential_batch_stops_at_first_error CertificateParser
                    (Scenarios.redirect_loop_at_1 CertificateParser)
                    Fixtures.in_submission_order 0
                    [0] 1 (py_range 2 1000) (RequestsError TooManyRedirects)
                    ltac:(vm_compute; reflexivity)
                    ltac:(intros y [<-|[]]; eexists; reflexivity)
                    eq_refl)).
  reflexivity.
Defined.

Lemma open_with_retry_first_request self net number_code budget attempts :
  (1 <= requests_made
          (fst (open_with_retry self net number_code (S budget) attempts [])))%nat.
Proof.
  destruct (net (url_of self number_code) (Z.to_nat attempts)) as [doc|e] eqn:Hnet.
  - rewrite (open_with_retry_page self net number_code budget attempts [] doc Hnet).
    unfold requests_made. simpl. lia.
  - destruct (transient e) eqn:Htr.
    + rewrite (open_with_retry_retries self net number_code budget attempts [] e Hnet Htr).
      rewrite (open_with_retry_framed self net number_code budget (attempts + 1) _).
      unfold requests_made. simpl. lia.
    + rewrite (open_with_retry_raises self net number_code budget attempts [] e Hnet Htr).
      unfold requests_made. simpl. lia.
Qed.

Lemma parse_first_request self net number_code :
  0 < _retry_attempts self ->
  (1 <= requests_made (parse_events self net number_code))%nat.
Proof.
  intros Hpos. unfold parse_events, parse, bind.
  destruct (Z.to_nat (_retry_attempts self)) as [|budget] eqn:Hb; [lia|].
  pose proof (open_with_retry_first_request self net number_code budget 0) as Hfirst.
  destruct (open_with_retry _ _ _ _ _ _) as [t [[doc|]|x]]; simpl in *.
  - rewrite (extract_framed self doc number_code t). simpl.
    rewrite requests_made_app. lia.
  - unfold log_exception, emit. simpl. rewrite requests_made_app. lia.
  - exact Hfirst.
Qed.

Lemma items_requests self net (ids : list Z) :
  (requests_made (List.concat (map (parse_events self net) ids))
   <= List.length ids * Z.to_nat (_retry_attempts self))%nat
  /\ (0 < _retry_attempts self ->
      (List.length ids
       <= requests_made (List.concat (map (parse_events self net) ids)))%nat).
Proof.
  induction ids as [|x ids [IHup IHlow]]; simpl.
  - split; [unfold requests_made; simpl; lia | intros _; lia].
  - rewrite requests_made_app.
    pose proof (parse_requests self net x) as Hx. split; [lia|].
    intros Hpos. specialize (IHlow Hpos).
    pose proof (parse_first_request self net x Hpos). lia.
Qed.

(** The requests of a sequential batch in which each identifier
    resolves: at most [_retry_attempts] per identifier, and at least one
    per identifier when an attempt is allowed; 1000 to 4000 requests with
    the attributes of the class. *)
Theorem batch_request_bounds self net schedule file_no :
  (forall x, In x (cert_range self file_no) ->
             exists v, parse_result self net x = Ret v) ->
  let made :=
    requests_made (fst (retrieveBatch self net schedule file_no false [])) in
  (made <= Z.to_nat (batchSize self) * Z.to_nat (_retry_attempts self))%nat
  /\ (0 < _retry_attempts self -> (Z.to_nat (batchSize self) <= made)%nat).
Proof.
  intros Hall made. subst made.
  rewrite (retrieveBatch_sequential self net schedule file_no [] Hall).
  cbn [fst]. rewrite !requests_made_app.
  assert (Hw : requests_made
                 (failure_warnings self
                    (list_count (batch_items self net file_no) (PyBool false)))
               = 0%nat).
  { unfold failure_warnings. destruct (_ >=? 1); reflexivity. }
  rewrite Hw.
  destruct (items_requests self net (cert_range self file_no)) as [Hup Hlow].
  rewrite cert_range_length in Hup, Hlow. unfold batchSize.
  change (requests_made []) with 0%nat.
  change (requests_made
            [Log INFO false [Lit "Starting batch number "; Fmt (PyInt file_no)]])
    with 0%nat.
  change (requests_made
            [Log INFO false [Lit "Completed batch number "; Fmt (PyInt file_no)]])
    with 0%nat.
  split; [lia|].
  intros Hpos. specialize (Hlow Hpos). lia.
Qed.

Lemma batch_request_bounds_witness :
  (requests_made
     (fst (retrieveBatch CertificateParser (Fixtures.mixed CertificateParser)
             Fixtures.in_submission_order 0 false []))
   <= 1000 * 4)%nat.
Proof.
  apply (batch_request_bounds CertificateParser
           (Fixtures.mixed CertificateParser) Fixtures.in_submission_order 0).
  apply returns_by_evaluation. vm_compute. reflexivity.
Defined.

(** With a batch size of zero or less the range is empty: a sequential
    batch makes no request, logs its start and its completion only, and
    returns the empty list; the division by the batch size is never
    reached. *)
Theorem empty_batch self net schedule file_no :
  batchSize self <= 0 ->
  retrieveBatch self net schedule file_no false []
  = ([ Log INFO false [Lit "Starting batch number "; Fmt (PyInt file_no)];
       Log INFO false [Lit "Completed batch number "; Fmt (PyInt file_no)] ],
     Ret (ListObj [])).
Proof.
  unfold batchSize. intros Hsize.
  assert (Hempty : cert_range self file_no = []).
  { apply length_zero_iff_nil. rewrite cert_range_length. lia. }
  rewrite (retrieveBatch_sequential self net schedule file_no []).
  - unfold batch_items. rewrite Hempty. reflexivity.
  - rewrite Hempty. intros x [].
Qed.

Lemma empty_batch_witness :
  snd (retrieveBatch
         {| _retry_attempts := 4; _batch_size := 0;
            _base_url := _base_url CertificateParser;
            _base_field := _base_field CertificateParser |}
         (Fixtures.always (Fails ConnectionError))
         Fixtures.in_submission_order 7 false [])
  = Ret (ListObj []).
Proof.
  rewrite (empty_batch
             {| _retry_attempts := 4; _batch_size := 0;
                _base_url := _base_url CertificateParser;
                _base_field := _base_field CertificateParser |}
             (Fixtures.always (Fails ConnectionError))
             Fixtures.in_submission_order 7 ltac:(vm_compute; discriminate)).
  reflexivity.
Defined.

Lemma parse_raises_requests_error self net number_code e :
  parse_result self net number_code = Raise e ->
  exists r, e = RequestsError r /\ transient r = false.
Proof.
  rewrite parse_result_phases.
  pose proof (open_with_retry_cases self net number_code
                (Z.to_nat (_retry_attempts self)) 0 [] ltac:(lia)) as Hloop.
  destruct (snd (open_with_retry _ _ _ _ _ _)) as [[doc|]|x];
    intros H; try discriminate.
  injection H as <-. destruct Hloop as (k & r & _ & _ & Hr & -> & _).
  now exists r.
Qed.

Lemma first_raising_call self net (ids : list Z) :
  (forall x, In x ids -> exists v, parse_result self net x = Ret v)
  \/ exists pre x post e,
       ids = pre ++ x :: post
       /\ (forall y, In y pre -> exists v, parse_result self net y = Ret v)
       /\ parse_result self net x = Raise e.
Proof.
  induction ids as [|x ids IH].
  - left. intros x [].
  - destruct (parse_result self net x) as [v|e] eqn:Hx.
    + destruct IH as [Hall|(pre & y & post & e & -> & Hpre & Hy)].
      * left. intros y [<-|Hy]; [now exists v | now apply Hall].
      * right. exists (x :: pre), y, post, e. repeat split; try assumption.
        intros z [<-|Hz]; [now exists v | now apply Hpre].
    + right. exists [], x, ids, e. repeat split; [|exact Hx]. intros y [].
Qed.

(** A sequential batch ends in one of two ways and no other: it returns
    a list with one item per identifier of the range, or it raises an
    error of the fetch of one of these identifiers that is neither a
    connection error nor a timeout.  It never raises [KeyError],
    [ZeroDivisionError] or [AttributeError]. *)
Theorem sequential_batch_outcomes self net schedule file_no :
  (exists items,
      snd (retrieveBatch self net schedule file_no false []) = Ret (ListObj items)
      /\ List.length items = Z.to_nat (batchSize self))
  \/ (exists x r,
        In x (cert_range self file_no)
        /\ parse_result self net x = Raise (RequestsError r)
        /\ transient r = false
        /\ snd (retrieveBatch self net schedule file_no false [])
           = Raise (RequestsError r)).
Proof.
  destruct (first_raising_call self net (cert_range self file_no))
    as [Hall|(pre & x & post & e & Hrange & Hpre & Hx)].
  - left. exists (batch_items self net file_no).
    rewrite (retrieveBatch_sequential self net schedule file_no [] Hall).
    split; [reflexivity | apply batch_items_length].
  - right. destruct (parse_raises_requests_error self net x e Hx) as (r & -> & Hr).
    exists x, r. split; [rewrite Hrange; apply in_elt|].
    split; [exact Hx|]. split; [exact Hr|].
    unfold retrieveBatch. fold (cert_range self file_no). rewrite Hrange.
    unfold bind at 1. unfold log at 1, emit. simpl.
    unfold bind at 1. unfold ret at 1.
    unfold bind at 1. unfold py_list. unfold bind at 1.
    rewrite (list_of_map_stops self net pre post x _ _ Hpre Hx). reflexivity.
Qed.

Lemma failure_rate_table :
  forallb
    (fun failed =>
       PrimFloat.ltb 0 (failure_rate CertificateParser failed)
       && PrimFloat.leb (failure_rate CertificateParser failed) 100
       && Bool.eqb (PrimFloat.eqb (failure_rate CertificateParser failed) 100)
                   (failed =? 1000)
       && ((failed =? 1000)
           || PrimFloat.ltb (failure_rate CertificateParser failed)
                            (failure_rate CertificateParser (failed + 1))))
    (py_range 1 1001) = true.
Proof. vm_compute. reflexivity. Qed.

(** The rate that a batch of the class logs, as the binary64 value
    computed by [(failed / 1000) * 100]: for 1 to 1000 failed items it is
    above 0 and at most 100, it grows strictly with the number of failed
    items, and it is 100 exactly when every item failed. *)
Theorem failure_rate_bounds failed :
  1 <= failed <= 1000 ->
  PrimFloat.ltb 0 (failure_rate CertificateParser failed) = true
  /\ PrimFloat.leb (failure_rate CertificateParser failed) 100 = true
  /\ (PrimFloat.eqb (failure_rate CertificateParser failed) 100 = true
      <-> failed = 1000)
  /\ (failed < 1000 ->
      PrimFloat.ltb (failure_rate CertificateParser failed)
                    (failure_rate CertificateParser (failed + 1)) = true).
Proof.
  intros Hrange.
  pose proof failure_rate_table as Htable. rewrite forallb_forall in Htable.
  specialize (Htable failed). rewrite In_py_range in Htable.
  specialize (Htable ltac:(lia)).
  apply andb_prop in Htable. destruct Htable as [Htable Hgrow].
  apply andb_prop in Htable. destruct Htable as [Htable Hfull].
  apply andb_prop in Htable. destruct Htable as [Hpos Hle].
  split; [exact Hpos|]. split; [exact Hle|]. split.
  - apply Bool.eqb_prop in Hfull. rewrite Hfull. apply Z.eqb_eq.
  - intros Hlt. apply orb_prop in Hgrow. destruct Hgrow as [H|H]; [|exact H].
    apply Z.eqb_eq in H. lia.
Qed.

Lemma failure_rate_bounds_witness :
  PrimFloat.leb (failure_rate CertificateParser 999) 100 = true
  /\ PrimFloat.ltb (failure_rate CertificateParser 999)
                   (failure_rate CertificateParser (999 + 1)) = true.
Proof.
  pose proof (failure_rate_bounds 999 ltac:(lia)) as (_ & Hle & _ & Hgrow).
  split; [exact Hle | apply Hgrow; lia].
Defined.

(* ================================================================== *)
(** ** The widgets *)
(* ================================================================== *)

Lemma py_range_hd (start stop : Z) :
  start < stop -> hd_error (py_range start stop) = Some start.
Proof.
  intros H. unfold py_range.
  destruct (Z.to_nat (stop - start)) as [|len] eqn:Hlen; [lia|].
  simpl. f_equal. lia.
Qed.

Lemma py_range_last (start stop d : Z) :
  start < stop -> last (py_range start stop) d = stop - 1.
Proof.
  intros H. rewrite <- (py_range_app start (stop - 1) stop) by lia.
  assert (Hone : py_range (stop - 1) stop = [stop - 1]).
  { unfold py_range. replace (stop - (stop - 1)) with 1 by lia. simpl.
    f_equal. lia. }
  rewrite Hone. apply last_last.
Qed.

(** The dialog counts batches from 1 where [retrieveBatch] counts them
    from 0: with a positive batch size, the range that [updateRange]
    shows for the value [v] of the spin box is, first and last
    identifier included, the range that [retrieveBatch] resolves for the
    file number [v - 1]. *)
Theorem updateRange_shows_previous_file self current_value :
  0 < batchSize self ->
  exists r_start r_end,
    updateRange (batchSize self) current_value
    = ("Download certificates " ++ str_int r_start ++ " - " ++ str_int r_end)%string
    /\ hd_error (cert_range self (current_value - 1)) = Some r_start
    /\ last (cert_range self (current_value - 1)) 0 = r_end
    /\ (forall x, In x (cert_range self (current_value - 1))
                  <-> r_start <= x <= r_end).
Proof.
  unfold batchSize. intros Hpos.
  exists ((current_value - 1) * _batch_size self),
         (current_value * _batch_size self - 1).
  split; [reflexivity|]. unfold cert_range. split; [|split].
  - rewrite py_range_hd by lia. f_equal. lia.
  - rewrite py_range_last by lia. lia.
  - intros x. rewrite In_py_range. lia.
Qed.

Lemma updateRange_shows_previous_file_witness :
  updateRange (batchSize CertificateParser) 3
  = "Download certificates 2000 - 2999"%string
  /\ hd_error (cert_range CertificateParser (3 - 1)) = Some 2000.
Proof.
  destruct (updateRange_shows_previous_file CertificateParser 3 eq_refl)
    as (r_start & r_end & Htext & Hhd & _ & _).
  split; [reflexivity|].
  rewrite Hhd. f_equal.
  assert (H : hd_error (cert_range CertificateParser (3 - 1)) = Some 2000)
    by reflexivity.
  congruence.
Defined.

Section CertStateProperties.

Variable CertState : Type.
Variable same_cert : CertState -> CertState -> bool.
Variables NOT_FOUND FAILED DOWNLOADED : CertState.

Lemma display_log_loop_acc (log : list (Z * CertState)) :
  forall display_log,
    display_log_loop CertState same_cert NOT_FOUND FAILED DOWNLOADED log display_log
    = display_log
        ++ map (fun r => ("Certificate " ++ str_int (fst r) ++ ": "
                            ++ record_msg_of CertState same_cert NOT_FOUND FAILED (snd r))%string)
             (filter (fun r => negb (same_cert (snd r) DOWNLOADED)) log).
Proof.
  induction log as [|[record_no record] log IH]; intros display_log; simpl.
  - now rewrite app_nil_r.
  - rewrite IH. destruct (same_cert record DOWNLOADED); simpl; [reflexivity|].
    now rewrite <- app_assoc.
Qed.

(** The log that [initBatchTab] displays lists, in the order of the
    records, one line for each record whose state is not [DOWNLOADED]
    and none for the others; a state that is neither [NOT_FOUND] nor
    [FAILED] gets a line with an empty message.  The lines and the
    downloaded records add up to the records given. *)
Theorem initBatchTab_lists_what_was_not_downloaded
    (batch_size : Z) (log : list (Z * CertState))
    (downloaded failed not_found : Z) :
  let lines :=
    map (fun r => ("Certificate " ++ str_int (fst r) ++ ": "
                     ++ (if same_cert (snd r) NOT_FOUND then "Does not exist"
                         else if same_cert (snd r) FAILED then "Download failed"
                         else ""))%string)
      (filter (fun r => negb (same_cert (snd r) DOWNLOADED)) log) in
  download_log
    (initBatchTab CertState same_cert NOT_FOUND FAILED DOWNLOADED
       batch_size log downloaded failed not_found)
  = py_join newline lines
  /\ (List.length lines
      + List.length (filter (fun r => same_cert (snd r) DOWNLOADED) log))%nat
     = List.length log.
Proof.
  cbv zeta. split.
  - unfold initBatchTab. simpl. now rewrite display_log_loop_acc.
  - rewrite length_map.
    induction log as [|[record_no record] log IH]; simpl; [reflexivity|].
    destruct (same_cert record DOWNLOADED); simpl; lia.
Qed.

End CertStateProperties.

Section DownloadStateProperties.

Variable DownloadState : Type.
Variable same_state : DownloadState -> DownloadState -> bool.
Variables CREATED STARTED COMPLETED SAVED STOPPED : DownloadState.

Lemma setDownloadEvent_cases (w w' : ItemWidgets) (event : DownloadState) :
  setDownloadEvent DownloadState same_state CREATED STARTED COMPLETED SAVED STOPPED
    w event = Some w' ->
  In (progress_label w')
     [ "Download workload created"; "Initializing download";
       "Download completed"; "Data saved on disc"; "Download cancelled" ]%string
  /\ ((progress_bar w' = progress_bar w /\ eta_label w' = eta_label w)
      \/ (progress_bar w' = 99 /\ eta_label w' = "0:00:01"%string)
      \/ (progress_bar w' = 100 /\ eta_label w' = "0:00:00"%string)).
Proof.
  unfold setDownloadEvent.
  destruct (dict_display_get same_state _ event) as [text|] eqn:Htext;
    [|discriminate].
  assert (Hin : In text
                  [ "Download workload created"; "Initializing download";
                    "Download completed"; "Data saved on disc";
                    "Download cancelled" ]%string).
  { simpl in Htext.
    destruct (same_state STOPPED event);
      [injection Htext as <-; simpl; tauto|].
    destruct (same_state SAVED event);
      [injection Htext as <-; simpl; tauto|].
    destruct (same_state COMPLETED event);
      [injection Htext as <-; simpl; tauto|].
    destruct (same_state STARTED event);
      [injection Htext as <-; simpl; tauto|].
    destruct (same_state CREATED event);
      [injection Htext as <-; simpl; tauto | discriminate]. }
  destruct (same_state event COMPLETED);
    [|destruct (same_state event SAVED)];
    intros H; injection H as <-; simpl; (split; [exact Hin | tauto]).
Qed.

(** Whatever events are delivered to a download item, its progress bar
    and its ETA move together: either both are as they were, or they
    read 99 and 0:00:01, or 100 and 0:00:00; no event sets any other
    value, and after an event the label reads one of the five texts. *)
Theorem progress_and_eta_move_together (w w' : ItemWidgets)
    (events : list DownloadState) :
  deliver DownloadState same_state CREATED STARTED COMPLETED SAVED STOPPED
    w events = Some w' ->
  ((progress_bar w' = progress_bar w /\ eta_label w' = eta_label w)
   \/ (progress_bar w' = 99 /\ eta_label w' = "0:00:01"%string)
   \/ (progress_bar w' = 100 /\ eta_label w' = "0:00:00"%string))
  /\ (events <> [] ->
      In (progress_label w')
         [ "Download workload created"; "Initializing download";
           "Download completed"; "Data saved on disc";
           "Download cancelled" ]%string).
Proof.
  revert w. induction events as [|event events IH]; intros w; simpl.
  - intros H. injection H as <-. split; [tauto | congruence].
  - destruct (setDownloadEvent _ _ _ _ _ _ _ w event) as [w1|] eqn:Hstep;
      [|discriminate].
    intros Hrest. apply setDownloadEvent_cases in Hstep.
    destruct Hstep as [Hlabel Hstep].
    destruct (IH w1 Hrest) as [Hpair Hlater]. split.
    + destruct Hpair as [[Hp He]|Hpair]; [|tauto].
      rewrite Hp, He. exact Hstep.
    + intros _. destruct events as [|e2 events].
      * simpl in Hrest. injection Hrest as <-. exact Hlabel.
      * apply Hlater. discriminate.
Qed.

End DownloadStateProperties.

Lemma progress_and_eta_move_together_witness :
  exists w',
    deliver Members.download_state Members.same_download_state
      Members.created Members.started Members.completed Members.saved
      Members.stopped Members.idle
      [Members.created; Members.started; Members.completed; Members.saved]
    = Some w'
    /\ progress_bar w' = 100 /\ eta_label w' = "0:00:00"%string.
Proof.
  eexists. split; [reflexivity|].
  destruct (progress_and_eta_move_together
              Members.download_state Members.same_download_state
              Members.created Members.started Members.completed Members.saved
              Members.stopped Members.idle _
              [Members.created; Members.started; Members.completed; Members.saved]
              eq_refl) as [_ _].
  split; reflexivity.
Defined.
